(** * SpendGuard policy RAG tool ([src/langflow/adk_policy_tool.py])

    A shallow embedding of [PolicyRAGTool]: the request payload built by
    [_call_langflow_rag], the formatter [_format_response], the summary rule
    [_generate_summary], the error formatter [_handle_error] and the tool
    entry point [execute].

    The tool works on untyped JSON data (whatever [response.json()] gives),
    so the embedding starts with the Python values such data is made of and
    the built-in operations the tool applies to them, each with the
    exception it raises on a value of the wrong shape. *)

From Stdlib Require Import ZArith List String Ascii Bool Lia.
From Stdlib Require Import DecimalString Floats.SpecFloat.
Import ListNotations.
Local Open Scope string_scope.
Local Open Scope Z_scope.

(** ** Python values *)

(** The values [json.loads] produces.  A [float] is an IEEE 754 binary64
    number ([spec_float] with precision 53); a [str] is a sequence of
    characters, here 8-bit ones; a [dict] keeps its items in insertion
    order, its keys are strings. *)
#[warnings="-register-all"]
Inductive value : Type :=
  | VNone
  | VBool (b : bool)
  | VInt (n : Z)
  | VFloat (f : spec_float)
  | VStr (s : string)
  | VList (l : list value)
  | VDict (d : list (string * value)).

(** ** Exceptions *)

(** An exception instance: its class name and its message, [str(e)]. *)
Inductive exn : Type :=
  | Exn (cls : string) (msg : string).

Definition exn_class (e : exn) : string := let (c, _) := e in c.
Definition str_exn (e : exn) : string := let (_, m) := e in m.

(** The classes of the standard library that derive from [BaseException]
    and not from [Exception]. *)
Definition outside_Exception : list string :=
  ["BaseException"; "BaseExceptionGroup"; "GeneratorExit";
   "KeyboardInterrupt"; "SystemExit"; "CancelledError"].

(** [isinstance(e, Exception)]: what [except Exception] takes. *)
Definition is_Exception (e : exn) : bool :=
  negb (existsb (String.eqb (exn_class e)) outside_Exception).

(** The outcome of running a piece of Python code: a value, or a raised
    exception. *)
Inductive raises (A : Type) : Type :=
  | Ok (a : A)
  | Raise (e : exn).
Arguments Ok {A} a.
Arguments Raise {A} e.

Definition bind {A B : Type} (c : raises A) (k : A -> raises B) : raises B :=
  match c with
  | Ok a => k a
  | Raise e => Raise e
  end.

Notation "x <- c ;; k" := (bind c (fun x => k))
  (at level 61, c at next level, right associativity).

(** ** Built-in operations *)

Module Py.

Definition prec : Z := 53.
Definition emax : Z := 1024.

(** [type(v).__name__] *)
Definition type_name (v : value) : string :=
  match v with
  | VNone => "NoneType"
  | VBool _ => "bool"
  | VInt _ => "int"
  | VFloat _ => "float"
  | VStr _ => "str"
  | VList _ => "list"
  | VDict _ => "dict"
  end.

Definition float_is_zero (f : spec_float) : bool :=
  match f with
  | S754_zero _ => true
  | _ => false
  end.

(** [bool(v)]: the truth value tested by [if v] and [x if v else y]. *)
Definition truthy (v : value) : bool :=
  match v with
  | VNone => false
  | VBool b => b
  | VInt n => negb (n =? 0)
  | VFloat f => negb (float_is_zero f)
  | VStr s => negb (String.length s =? 0)%nat
  | VList l => negb (Nat.eqb (List.length l) 0)
  | VDict d => negb (Nat.eqb (List.length d) 0)
  end.

(** Lookup of a string key in the items of a dict. *)
Fixpoint lookup (k : string) (d : list (string * value)) : option value :=
  match d with
  | [] => None
  | (k', v) :: d' => if String.eqb k k' then Some v else lookup k d'
  end.

(** [d[k] = v] on the items of a dict: an existing key keeps its place. *)
Fixpoint store (k : string) (v : value) (d : list (string * value))
  : list (string * value) :=
  match d with
  | [] => [(k, v)]
  | (k', v') :: d' =>
      if String.eqb k k' then (k, v) :: d' else (k', v') :: store k v d'
  end.

Definition attribute_error (v : value) (attr : string) : exn :=
  Exn "AttributeError"
      ("'" ++ type_name v ++ "' object has no attribute '" ++ attr ++ "'").

(** [v.get(k, default)]: only a dict has the method. *)
Definition get (v : value) (k : string) (default : value) : raises value :=
  match v with
  | VDict d =>
      match lookup k d with
      | Some x => Ok x
      | None => Ok default
      end
  | _ => Raise (attribute_error v "get")
  end.

Definition string_of_nat (n : nat) : string :=
  NilZero.string_of_uint (Nat.to_uint n).

Definition string_of_Z (n : Z) : string :=
  NilZero.string_of_int (Z.to_int n).

(** The i-th character of a string, as a string of length one. *)
Fixpoint char_at (s : string) (i : nat) : option string :=
  match s, i with
  | EmptyString, _ => None
  | String c _, O => Some (String c EmptyString)
  | String _ s', S i' => char_at s' i'
  end.

(** [v[i]] for an index [i >= 0]. *)
Definition index (v : value) (i : nat) : raises value :=
  match v with
  | VList l =>
      match nth_error l i with
      | Some x => Ok x
      | None => Raise (Exn "IndexError" "list index out of range")
      end
  | VStr s =>
      match char_at s i with
      | Some c => Ok (VStr c)
      | None => Raise (Exn "IndexError" "string index out of range")
      end
  | VDict _ => Raise (Exn "KeyError" (string_of_nat i))
  | _ => Raise (Exn "TypeError"
                  ("'" ++ type_name v ++ "' object is not subscriptable"))
  end.

Fixpoint chars (s : string) : list value :=
  match s with
  | EmptyString => []
  | String c s' => VStr (String c EmptyString) :: chars s'
  end.

(** The items [for x in v] goes through. *)
Definition iterate (v : value) : raises (list value) :=
  match v with
  | VList l => Ok l
  | VStr s => Ok (chars s)
  | VDict d => Ok (map (fun kv => VStr (fst kv)) d)
  | _ => Raise (Exn "TypeError"
                  ("'" ++ type_name v ++ "' object is not iterable"))
  end.

(** [len(v)] *)
Definition len (v : value) : raises Z :=
  match v with
  | VStr s => Ok (Z.of_nat (String.length s))
  | VList l => Ok (Z.of_nat (List.length l))
  | VDict d => Ok (Z.of_nat (List.length d))
  | _ => Raise (Exn "TypeError"
                  ("object of type '" ++ type_name v ++ "' has no len()"))
  end.

(** [v[:n]] for [n >= 0].  A dict takes the slice for a key: a
    [TypeError] up to CPython 3.11, where a slice is not hashable. *)
Definition slice_to (v : value) (n : nat) : raises value :=
  match v with
  | VStr s => Ok (VStr (substring 0 n s))
  | VList l => Ok (VList (firstn n l))
  | VDict _ => Raise (Exn "TypeError" "unhashable type: 'slice'")
  | _ => Raise (Exn "TypeError"
                  ("'" ++ type_name v ++ "' object is not subscriptable"))
  end.


(** *** Text of a value: [repr(v)] and [str(v)] *)

Definition hex_digit (n : nat) : ascii :=
  nth n ["0"; "1"; "2"; "3"; "4"; "5"; "6"; "7"; "8"; "9";
         "a"; "b"; "c"; "d"; "e"; "f"]%char "0"%char.

(** The printable characters among the first 256. *)
Definition printable (c : ascii) : bool :=
  let n := nat_of_ascii c in
  ((32 <=? n) && (n <? 127) || (161 <=? n) && negb (n =? 173))%nat.

Fixpoint contains (c : ascii) (s : string) : bool :=
  match s with
  | EmptyString => false
  | String c' s' => Ascii.eqb c c' || contains c s'
  end.

Definition escape_char (quote c : ascii) : string :=
  if Ascii.eqb c quote || Ascii.eqb c "\"%char then String "\" (String c "")
  else if Ascii.eqb c "009"%char then "\t"
  else if Ascii.eqb c "010"%char then "\n"
  else if Ascii.eqb c "013"%char then "\r"
  else if printable c then String c ""
  else "\x" ++ String (hex_digit (nat_of_ascii c / 16))
                 (String (hex_digit (nat_of_ascii c mod 16)) "").

Fixpoint escape (quote : ascii) (s : string) : string :=
  match s with
  | EmptyString => ""
  | String c s' => escape_char quote c ++ escape quote s'
  end.

(** [repr(s)] of a str: single quotes, unless the text has a single quote
    and no double quote. *)
Definition str_repr (s : string) : string :=
  let quote :=
    if contains "'"%char s && negb (contains "034"%char s)
    then "034"%char else "'"%char in
  String quote (escape quote s) ++ String quote "".

Fixpoint zeros (n : nat) : string :=
  match n with
  | O => ""
  | S n' => String "0" (zeros n')
  end.

Definition ceil_div (a b : Z) : Z := - ((- a) / b).

(** The decimal [c * 10^p] nearest to the float [m * 2^e] among those that
    read back as this float, if there is one: the bounds of the float's
    rounding interval are half-way to its neighbours, and belong to it
    when [m] is even. *)
Definition candidate (m : positive) (e : Z) (p : Z) : option Z :=
  let even := Z.even (Zpos m) in
  let narrow :=
    Pos.eqb m (Pos.shiftl 1 52) && (SpecFloat.emin prec emax <? e) in
  let x := 4 * Zpos m in
  let lo := if narrow then x - 1 else x - 2 in
  let hi := x + 2 in
  let sh := e - 2 in
  let up :=
    (if 0 <=? sh then 2 ^ sh else 1) * (if p <? 0 then 10 ^ (- p) else 1) in
  let dn :=
    (if 0 <=? sh then 1 else 2 ^ (- sh)) * (if p <? 0 then 1 else 10 ^ p) in
  let cmin := if even then ceil_div (lo * up) dn else (lo * up) / dn + 1 in
  let cmax := if even then (hi * up) / dn else ceil_div (hi * up) dn - 1 in
  if (cmin <=? cmax) && (1 <=? cmax) then
    let q := (2 * x * up + dn) / (2 * dn) in
    let q :=
      if ((2 * x * up + dn) mod (2 * dn) =? 0) && Z.odd q then q - 1 else q in
    Some (Z.max cmin (Z.min cmax q))
  else None.

(** The shortest such decimal: the largest [p] that has one. *)
Fixpoint shortest (fuel : nat) (m : positive) (e : Z) (p : Z) : Z * Z :=
  match candidate m e p with
  | Some c => (c, p)
  | None =>
      match fuel with
      | O => (0, p)
      | S fuel' => shortest fuel' m e (p - 1)
      end
  end.

(** The digits of a finite float and the place of its decimal point. *)
Definition float_digits (m : positive) (e : Z) : string * Z :=
  let k := Zdigits2 (Zpos m) + e in
  let p0 := (k + 1) * 30103 / 100000 + 1 in
  let '(c, p) := shortest 40 m e p0 in
  let ds := string_of_Z c in
  (ds, Z.of_nat (String.length ds) + p).

(** [repr(f)] of a float. *)
Definition float_repr (f : spec_float) : string :=
  match f with
  | S754_nan => "nan"
  | S754_infinity s => if s then "-inf" else "inf"
  | S754_zero s => if s then "-0.0" else "0.0"
  | S754_finite s m e =>
      let '(ds, decpt) := float_digits m e in
      let n := Z.of_nat (String.length ds) in
      let body :=
        if (decpt <=? -4) || (16 <? decpt) then
          substring 0 1 ds
          ++ (if 1 <? n then "." ++ substring 1 (String.length ds) ds else "")
          ++ "e" ++ (if decpt - 1 <? 0 then "-" else "+")
          ++ (if Z.abs (decpt - 1) <? 10 then "0" else "")
          ++ string_of_Z (Z.abs (decpt - 1))
        else if decpt <=? 0 then
          "0." ++ zeros (Z.to_nat (- decpt)) ++ ds
        else if decpt <? n then
          substring 0 (Z.to_nat decpt) ds ++ "."
          ++ substring (Z.to_nat decpt) (String.length ds) ds
        else ds ++ zeros (Z.to_nat (decpt - n)) ++ ".0" in
      (if s then "-" else "") ++ body
  end.

Fixpoint join (sep : string) (l : list string) : string :=
  match l with
  | [] => ""
  | [x] => x
  | x :: l' => x ++ sep ++ join sep l'
  end.

(** [repr(v)] *)
Fixpoint repr (v : value) : string :=
  match v with
  | VNone => "None"
  | VBool b => if b then "True" else "False"
  | VInt n => string_of_Z n
  | VFloat f => float_repr f
  | VStr s => str_repr s
  | VList l => "[" ++ join ", " (map repr l) ++ "]"
  | VDict d =>
      "{" ++ join ", " (map (fun kv => match kv with
                                       | (k, x) => str_repr k ++ ": " ++ repr x
                                       end) d) ++ "}"
  end.

(** [str(v)], the text an f-string puts in place of [{v}]. *)
Definition str (v : value) : string :=
  match v with
  | VStr s => s
  | _ => repr v
  end.

(** *** Numbers *)

Inductive number : Type :=
  | NInt (n : Z)
  | NFloat (f : spec_float).

(** A [bool] is an [int]. *)
Definition as_number (v : value) : option number :=
  match v with
  | VBool b => Some (NInt (if b then 1 else 0))
  | VInt n => Some (NInt n)
  | VFloat f => Some (NFloat f)
  | _ => None
  end.

Definition float_is_infinite (f : spec_float) : bool :=
  match f with
  | S754_infinity _ => true
  | _ => false
  end.

(** [float(n)] of an int, rounded to the nearest float. *)
Definition float_of_int (n : Z) : raises spec_float :=
  let f := binary_normalize prec emax n 0 false in
  if float_is_infinite f
  then Raise (Exn "OverflowError" "int too large to convert to float")
  else Ok f.

Definition exact (n : Z) : spec_float :=
  match n with
  | Z0 => S754_zero false
  | Zpos p => S754_finite false p 0
  | Zneg p => S754_finite true p 0
  end.

Definition operand_error (op : string) (x y : value) : exn :=
  Exn "TypeError"
      ("unsupported operand type(s) for " ++ op ++ ": '" ++ type_name x
       ++ "' and '" ++ type_name y ++ "'").

(** [x + y] on numbers. *)
Definition add (x y : value) : raises value :=
  match as_number x, as_number y with
  | Some (NInt a), Some (NInt b) => Ok (VInt (a + b))
  | Some (NInt a), Some (NFloat g) =>
      f <- float_of_int a ;; Ok (VFloat (SFadd prec emax f g))
  | Some (NFloat f), Some (NInt b) =>
      g <- float_of_int b ;; Ok (VFloat (SFadd prec emax f g))
  | Some (NFloat f), Some (NFloat g) => Ok (VFloat (SFadd prec emax f g))
  | _, _ => Raise (operand_error "+" x y)
  end.

Definition float_div (f g : spec_float) : raises value :=
  if float_is_zero g
  then Raise (Exn "ZeroDivisionError" "float division by zero")
  else Ok (VFloat (SFdiv prec emax f g)).

(** [x / y] on numbers: the quotient of two ints is the float nearest to
    the exact quotient. *)
Definition truediv (x y : value) : raises value :=
  match as_number x, as_number y with
  | Some (NInt a), Some (NInt b) =>
      if b =? 0 then Raise (Exn "ZeroDivisionError" "division by zero")
      else
        let q := SFdiv prec emax (exact a) (exact b) in
        if float_is_infinite q
        then Raise (Exn "OverflowError"
                      "integer division result too large for a float")
        else Ok (VFloat q)
  | Some (NInt a), Some (NFloat g) => f <- float_of_int a ;; float_div f g
  | Some (NFloat f), Some (NInt b) => g <- float_of_int b ;; float_div f g
  | Some (NFloat f), Some (NFloat g) => float_div f g
  | _, _ => Raise (operand_error "/" x y)
  end.

Fixpoint sum_from (total : value) (l : list value) : raises value :=
  match l with
  | [] => Ok total
  | x :: l' => t <- add total x ;; sum_from t l'
  end.

(** [sum(l)]: the items are added to 0 from left to right, each addition
    rounded (CPython from 3.12 on keeps a correction term for float items,
    which can change the last bit of the total). *)
Definition sum (l : list value) : raises value := sum_from (VInt 0) l.

End Py.

(** ** The tool: [class PolicyRAGTool] *)

(** [section_info], the dict built for one chunk.  Its four fields hold
    whatever the response had under these keys. *)
Record SectionInfo : Type := {
  content : value;
  section_number : value;
  section_title : value;
  page_number : value
}.

(** The value under ["confidence"]. *)
Record Confidence : Type := {
  scores : list value;
  average : value
}.

(** The dict [_format_response] returns. *)
Record Answer : Type := {
  query : string;
  relevant_sections : list SectionInfo;
  citations : list string;
  confidence : Confidence;
  summary : string;
  source : string
}.

(** The dict [_handle_error] returns. *)
Record ErrorAnswer : Type := {
  error_query : string;
  error : bool;
  error_message : string;
  fallback : string;
  error_relevant_sections : list SectionInfo;
  error_citations : list string
}.

(** What [execute] returns, when it returns: one dict or the other, told
    apart by the
    ["error"] key. *)
Inductive AnswerResult : Type :=
  | Success (a : Answer)
  | Failure (e : ErrorAnswer).

(** An argument declared [Optional[str]], as a value. *)
Definition of_optional (o : option string) : value :=
  match o with
  | None => VNone
  | Some s => VStr s
  end.

(** [d[k]] for a string key. *)
Definition getitem (d : value) (k : string) : raises value :=
  match d with
  | VDict items =>
      match Py.lookup k items with
      | Some x => Ok x
      | None => Raise (Exn "KeyError" (Py.str_repr k))
      end
  | VStr _ =>
      Raise (Exn "TypeError" "string indices must be integers, not 'str'")
  | VList _ =>
      Raise (Exn "TypeError" "list indices must be integers or slices, not str")
  | _ => Raise (Exn "TypeError"
                  ("'" ++ Py.type_name d ++ "' object is not subscriptable"))
  end.

(** [d[k] = v] for a string key. *)
Definition setitem (d : value) (k : string) (v : value) : raises value :=
  match d with
  | VDict items => Ok (VDict (Py.store k v items))
  | _ => Raise (Exn "TypeError"
                  ("'" ++ Py.type_name d
                   ++ "' object does not support item assignment"))
  end.

(** Lines 125-134: the payload before the filter is added. *)
Definition base_payload (query : string) (top_k : Z) : value :=
  VDict [("input_value", VStr query);
         ("output_type", VStr "chat");
         ("input_type", VStr "chat");
         ("tweaks", VDict [("Retriever", VDict [("top_k", VInt top_k)])])].

(** Lines 125-140: the request payload.  The assignment of line 138 changes
    the dict under ["Retriever"] in place; here the changed dict is put back
    under ["tweaks"], and that one in the payload. *)
Definition build_payload (query : string) (section_filter : option string)
    (top_k : Z) : raises value :=
  let payload := base_payload query top_k in
  if Py.truthy (of_optional section_filter) then
    tweaks <- getitem payload "tweaks" ;;
    retriever <- getitem tweaks "Retriever" ;;
    retriever' <- setitem retriever "filter"
      (VDict [("section_number",
               VDict [("$eq", of_optional section_filter)])]) ;;
    tweaks' <- setitem tweaks "Retriever" retriever' ;;
    setitem payload "tweaks" tweaks'
  else Ok payload.

(** Lines 204-222. *)
Definition _generate_summary (sections : list SectionInfo) (query : string)
    : raises string :=
  match sections with
  | [] => Ok "No relevant policy sections found for this query."
  | top_section :: _ =>
      n <- Py.len (content top_section) ;;
      if 500 <? n then
        head <- Py.slice_to (content top_section) 500 ;;
        Ok ("Based on " ++ Py.str (section_number top_section) ++ ": "
            ++ Py.str head ++ "...")
      else
        Ok ("Based on Section " ++ Py.str (section_number top_section) ++ ": "
            ++ Py.str (content top_section))
  end.

(** Lines 162-163: the dict that holds the chunks. *)
Definition extract_result (raw_response : value) : raises value :=
  outputs <- Py.get raw_response "outputs" (VList [VDict []]) ;;
  if Py.truthy outputs then
    first <- Py.index outputs 0 ;;
    inner <- Py.get first "outputs" (VList [VDict []]) ;;
    Py.index inner 0
  else Ok (VDict []).

(** Lines 182-184: the citation of a section. *)
Definition cite (section_info : SectionInfo) : string :=
  let citation := "Section " ++ Py.str (section_number section_info) in
  if Py.truthy (section_title section_info)
  then citation ++ " (" ++ Py.str (section_title section_info) ++ ")"
  else citation.

(** Lines 174-187, the body of the loop: the section, the citation and the
    score of the chunk at index [i]. *)
Definition format_chunk (metadata : value) (i : nat) (chunk : value)
    : raises (SectionInfo * string * value) :=
  text <- Py.get chunk "text" (VStr "") ;;
  entry <- Py.index metadata i ;;
  number <- Py.get entry "section_number" (VStr "Unknown") ;;
  entry <- Py.index metadata i ;;
  title <- Py.get entry "section_title" (VStr "") ;;
  entry <- Py.index metadata i ;;
  page <- Py.get entry "page_number" (VInt 0) ;;
  let section_info :=
    {| content := text; section_number := number;
       section_title := title; page_number := page |} in
  score <- Py.get chunk "similarity_score" (VFloat (S754_zero false)) ;;
  Ok (section_info, cite section_info, score).

(** The three lists the loop fills. *)
Definition lists : Type := (list SectionInfo * list string * list value)%type.

(** Lines 173-187, the loop over [enumerate(chunks)], from index [i] on:
    each chunk appends one item to each list. *)
Fixpoint format_chunks (metadata : value) (i : nat) (chunks : list value)
    (acc : lists) : raises lists :=
  match chunks with
  | [] => Ok acc
  | chunk :: rest =>
      let '(relevant_sections, citations, confidence_scores) := acc in
      item <- format_chunk metadata i chunk ;;
      let '(section_info, citation, score) := item in
      format_chunks metadata (S i) rest
        ((relevant_sections ++ [section_info])%list,
         (citations ++ [citation])%list,
         (confidence_scores ++ [score])%list)
  end.

(** Line 198. *)
Definition mean_or_zero (confidence_scores : list value) : raises value :=
  if Py.truthy (VList confidence_scores) then
    total <- Py.sum confidence_scores ;;
    Py.truediv total (VInt (Z.of_nat (List.length confidence_scores)))
  else Ok (VInt 0).

(** Lines 154-202. *)
Definition _format_response (raw_response : value) (original_query : string)
    : raises Answer :=
  result <- extract_result raw_response ;;
  chunks <- Py.get result "chunks" (VList []) ;;
  metadata <- Py.get result "metadata" (VList []) ;;
  items <- Py.iterate chunks ;;
  filled <- format_chunks metadata 0 items ([], [], []) ;;
  let '(relevant_sections, citations, confidence_scores) := filled in
  summary <- _generate_summary relevant_sections original_query ;;
  average <- mean_or_zero confidence_scores ;;
  Ok {| query := original_query;
        relevant_sections := relevant_sections;
        citations := citations;
        confidence := {| scores := confidence_scores; average := average |};
        summary := summary;
        source := "ACME Corp Procurement Policy v2.1" |}.

(** Lines 224-238. *)
Definition _handle_error (error : exn) (query : string) : ErrorAnswer :=
  {| error_query := query;
     error := true;
     error_message := str_exn error;
     fallback :=
       "Unable to retrieve policy information dynamically. "
       ++ "Please consult the policy document directly or contact "
       ++ "procurement@acme.corp for assistance.";
     error_relevant_sections := [];
     error_citations := [] |}.

(** The calls that leave the program: the configuration read from the
    environment and the HTTP client. *)
Section Tool.

Variable LANGFLOW_URL : string.
Variable FLOW_ID : string.

(** [requests.Response] *)
Variable Response : Type.

(** [requests.post(url, json=.., headers=.., timeout=..)] *)
Variable requests_post :
  string -> value -> list (string * string) -> Z -> raises Response.

(** [response.raise_for_status()] *)
Variable raise_for_status : Response -> raises unit.

(** [response.json()] *)
Variable json : Response -> raises value.

(** Lines 117-152. *)
Definition _call_langflow_rag (query : string)
    (section_filter : option string) (top_k : Z) : raises value :=
  payload <- build_payload query section_filter top_k ;;
  let endpoint := LANGFLOW_URL ++ "/api/v1/run/" ++ FLOW_ID in
  response <- requests_post endpoint payload
                [("Content-Type", "application/json")] 30 ;;
  _ <- raise_for_status response ;;
  json response.

(** Lines 90-115: [except Exception] takes the exceptions of the two calls
    that are instances of [Exception]; any other one leaves [execute] as it
    was raised. *)
Definition execute (query : string) (section_filter : option string)
    (top_k : Z) : raises AnswerResult :=
  match (response <- _call_langflow_rag query section_filter top_k ;;
         _format_response response query) with
  | Ok answer => Ok (Success answer)
  | Raise e =>
      if is_Exception e
      then Ok (Failure (_handle_error e query))
      else Raise e
  end.

End Tool.

Arguments _call_langflow_rag LANGFLOW_URL FLOW_ID {Response}.
Arguments execute LANGFLOW_URL FLOW_ID {Response}.


(** ** Views used to state the properties *)

(** The chunk list and the metadata value [_format_response] works on
    (lines 162-166 and the [enumerate] of line 173). *)
Definition chunks_of (raw_response : value) : raises (list value) :=
  result <- extract_result raw_response ;;
  chunks <- Py.get result "chunks" (VList []) ;;
  Py.iterate chunks.

Definition metadata_of (raw_response : value) : raises value :=
  result <- extract_result raw_response ;;
  Py.get result "metadata" (VList []).

(** The loop seen as one step per chunk, the steps collected in order. *)
Fixpoint format_each (metadata : value) (i : nat) (chunks : list value)
    : raises (list (SectionInfo * string * value)) :=
  match chunks with
  | [] => Ok []
  | chunk :: rest =>
      item <- format_chunk metadata i chunk ;;
      items <- format_each metadata (S i) rest ;;
      Ok (item :: items)
  end.

Definition section_of (item : SectionInfo * string * value) : SectionInfo :=
  fst (fst item).
Definition citation_of (item : SectionInfo * string * value) : string :=
  snd (fst item).
Definition score_of (item : SectionInfo * string * value) : value :=
  snd item.

Definition is_dict (v : value) : bool :=
  match v with
  | VDict _ => true
  | _ => false
  end.

Definition is_str (v : value) : bool :=
  match v with
  | VStr _ => true
  | _ => false
  end.

Definition is_float (v : value) : bool :=
  match v with
  | VFloat _ => true
  | _ => false
  end.

Definition absent_or (p : value -> bool) (o : option value) : bool :=
  match o with
  | None => true
  | Some v => p v
  end.

(** A chunk record of the data model, [{text, similarity_score}]: a dict
    whose text, if any, is a str and whose score, if any, is a float. *)
Definition is_chunk_record (v : value) : bool :=
  match v with
  | VDict d =>
      absent_or is_str (Py.lookup "text" d)
      && absent_or is_float (Py.lookup "similarity_score" d)
  | _ => false
  end.

(** Whether the key [k] occurs in a dict anywhere inside [v]. *)
Fixpoint mentions_key (k : string) (v : value) : bool :=
  match v with
  | VList l => existsb (mentions_key k) l
  | VDict d =>
      existsb (fun kv => match kv with
                         | (k', x) => String.eqb k k' || mentions_key k x
                         end) d
  | _ => false
  end.

(** [v[k1][k2]...] along a path of keys. *)
Fixpoint at_path (v : value) (path : list string) : raises value :=
  match path with
  | [] => Ok v
  | k :: path' => x <- getitem v k ;; at_path x path'
  end.

(** The response [{"outputs": [{"outputs": [{"chunks": cs, "metadata": ms}]}]}]. *)
Definition rag_response (cs ms : value) : value :=
  VDict [("outputs",
          VList [VDict [("outputs",
                         VList [VDict [("chunks", cs); ("metadata", ms)]])]])].

(** Following the specification: the arithmetic mean of a score list, the
    sum of the scores divided by their count. *)
Definition arithmetic_mean (scores : list value) : raises value :=
  total <- Py.sum scores ;;
  Py.truediv total (VInt (Z.of_nat (List.length scores))).

(** Following the specification: ["Section {section_number}"], and
    [" ({section_title})"] appended if the title is not empty. *)
Definition spec_citation (number : value) (title : string) : string :=
  if String.eqb title ""
  then "Section " ++ Py.str number
  else "Section " ++ Py.str number ++ " (" ++ title ++ ")".

(** The answer for an empty chunk list. *)
Definition empty_answer (original_query : string) : Answer :=
  {| query := original_query;
     relevant_sections := [];
     citations := [];
     confidence := {| scores := []; average := VInt 0 |};
     summary := "No relevant policy sections found for this query.";
     source := "ACME Corp Procurement Policy v2.1" |}.

(** ** Sample data *)

(** The float [m * 2^e]. *)
Definition float_lit (m e : Z) : value :=
  VFloat (binary_normalize Py.prec Py.emax m e false).

Definition tiers_chunk : value :=
  VDict [("text", VStr "Interns may order equipment up to $1,500.");
         ("similarity_score", float_lit 7 (-3))].

Definition tiers_entry : value :=
  VDict [("section_number", VStr "3.2");
         ("section_title", VStr "Equipment Tiers");
         ("page_number", VInt 12)].

Definition software_chunk : value :=
  VDict [("text", VStr "Software above $10,000 needs VP approval.");
         ("similarity_score", float_lit 1 (-1))].

Definition software_entry : value :=
  VDict [("section_number", VStr "4.1");
         ("section_title", VStr "");
         ("page_number", VInt 20)].

(** A chunk without ["text"] and its metadata entry. *)
Definition bare_chunk : value :=
  VDict [("similarity_score", float_lit 1 (-2))].

Definition vendor_entry : value :=
  VDict [("section_number", VStr "5.3")].

Definition two_chunks : value :=
  rag_response (VList [tiers_chunk; software_chunk])
               (VList [tiers_entry; software_entry]).

(** One chunk, and a metadata list with no entry for it. *)
Definition no_entry : value :=
  rag_response (VList [tiers_chunk]) (VList []).

(** A response whose inner ["outputs"] list is empty. *)
Definition empty_inner : value :=
  VDict [("outputs", VList [VDict [("outputs", VList [])]])].

Fixpoint repeat_char (c : ascii) (n : nat) : string :=
  match n with
  | O => ""
  | S n' => String c (repeat_char c n')
  end.

Definition section_with (text : string) : SectionInfo :=
  {| content := VStr text; section_number := VStr "3.2";
     section_title := VStr "Equipment Tiers"; page_number := VInt 12 |}.

(** The answer to [two_chunks]. *)
Definition two_answer : Answer :=
  {| query := "equipment limit for interns";
     relevant_sections :=
       [{| content := VStr "Interns may order equipment up to $1,500.";
           section_number := VStr "3.2";
           section_title := VStr "Equipment Tiers";
           page_number := VInt 12 |};
        {| content := VStr "Software above $10,000 needs VP approval.";
           section_number := VStr "4.1";
           section_title := VStr "";
           page_number := VInt 20 |}];
     citations := ["Section 3.2 (Equipment Tiers)"; "Section 4.1"];
     confidence :=
       {| scores := [float_lit 7 (-3); float_lit 1 (-1)];
          average := float_lit 11 (-4) |};
     summary := "Based on Section 3.2: Interns may order equipment up to $1,500.";
     source := "ACME Corp Procurement Policy v2.1" |}.

(** A response whose first chunk has no ["text"]. *)
Definition bare_first : value :=
  rag_response (VList [bare_chunk; tiers_chunk])
               (VList [vendor_entry; tiers_entry]).

Definition bare_answer : Answer :=
  {| query := "vendor requirements";
     relevant_sections :=
       [{| content := VStr "";
           section_number := VStr "5.3";
           section_title := VStr "";
           page_number := VInt 0 |};
        {| content := VStr "Interns may order equipment up to $1,500.";
           section_number := VStr "3.2";
           section_title := VStr "Equipment Tiers";
           page_number := VInt 12 |}];
     citations := ["Section 5.3"; "Section 3.2 (Equipment Tiers)"];
     confidence :=
       {| scores := [float_lit 1 (-2); float_lit 7 (-3)];
          average := float_lit 9 (-4) |};
     summary := "Based on Section 5.3: ";
     source := "ACME Corp Procurement Policy v2.1" |}.

(** A server that answers every request with [response]. *)
Definition answering (response : value)
    : string -> value -> list (string * string) -> Z -> raises value :=
  fun _ _ _ _ => Ok response.

(** A connection that fails. *)
Definition refusing
    : string -> value -> list (string * string) -> Z -> raises value :=
  fun _ _ _ _ => Raise (Exn "ConnectionError" "Connection refused").


Definition status_ok : value -> raises unit := fun _ => Ok tt.
Definition body : value -> raises value := fun response => Ok response.

(** ** Views for the further properties *)

(** An answer with another ["query"]. *)
Definition with_query (q : string) (a : Answer) : Answer :=
  {| query := q;
     relevant_sections := relevant_sections a;
     citations := citations a;
     confidence := confidence a;
     summary := summary a;
     source := source a |}.

(** The ["query"] of either dict. *)
Definition result_query (r : AnswerResult) : string :=
  match r with
  | Success a => query a
  | Failure f => error_query f
  end.

Definition is_number (v : value) : bool :=
  match Py.as_number v with
  | Some _ => true
  | None => false
  end.

(** The values with a length, which are also the ones a [for] goes
    through: str, list and dict. *)
Definition is_sized (v : value) : bool :=
  match v with
  | VStr _ | VList _ | VDict _ => true
  | _ => false
  end.

(** The keys of a dict, in order. *)
Definition keys (v : value) : list string :=
  match v with
  | VDict d => map fst d
  | _ => []
  end.

(** [two_chunks] with a second output, a second inner output and a key
    of its own. *)
Definition two_chunks_and_more : value :=
  VDict [("outputs",
          VList [VDict [("outputs",
                         VList [VDict [("chunks",
                                        VList [tiers_chunk; software_chunk]);
                                       ("metadata",
                                        VList [tiers_entry; software_entry])];
                                VDict [("chunks", VList [bare_chunk])]]);
                        ("session_id", VStr "s-1")];
                 VDict [("outputs", VList [])]])].

(** [two_chunks] with a third metadata entry. *)
Definition two_chunks_surplus : value :=
  rag_response (VList [tiers_chunk; software_chunk])
               (VList [tiers_entry; software_entry; vendor_entry]).

(** A chunk without a score; a metadata entry with a [null] title. *)
Definition unscored_chunk : value :=
  VDict [("text", VStr "Gaming equipment is prohibited.")].

Definition prohibited_entry : value :=
  VDict [("section_number", VStr "6.1");
         ("section_title", VNone);
         ("page_number", VInt 31)].

Definition unscored_first : value :=
  rag_response (VList [unscored_chunk; tiers_chunk])
               (VList [prohibited_entry; tiers_entry]).

Definition unscored_answer : Answer :=
  {| query := "Can I buy gaming equipment?";
     relevant_sections :=
       [{| content := VStr "Gaming equipment is prohibited.";
           section_number := VStr "6.1";
           section_title := VNone;
           page_number := VInt 31 |};
        {| content := VStr "Interns may order equipment up to $1,500.";
           section_number := VStr "3.2";
           section_title := VStr "Equipment Tiers";
           page_number := VInt 12 |}];
     citations := ["Section 6.1"; "Section 3.2 (Equipment Tiers)"];
     confidence :=
       {| scores := [VFloat (S754_zero false); float_lit 7 (-3)];
          average := float_lit 7 (-4) |};
     summary := "Based on Section 6.1: Gaming equipment is prohibited.";
     source := "ACME Corp Procurement Policy v2.1" |}.

(** A chunk whose text is [null]. *)
Definition null_text_chunk : value :=
  VDict [("text", VNone); ("similarity_score", float_lit 1 (-1))].

(** A response whose second chunk is a bare string, one whose second
    metadata entry is [null], one whose first text is [null], one whose
    chunks are a number. *)
Definition string_chunk : value :=
  rag_response (VList [tiers_chunk; VStr "Software needs approval."])
               (VList [tiers_entry; software_entry]).

Definition null_entry : value :=
  rag_response (VList [tiers_chunk; software_chunk])
               (VList [tiers_entry; VNone]).

Definition null_text_first : value :=
  rag_response (VList [null_text_chunk; tiers_chunk])
               (VList [vendor_entry; tiers_entry]).

Definition number_chunks : value :=
  rag_response (VInt 3) (VList []).

(** A response whose first text has 2000 characters. *)
Definition long_first : value :=
  rag_response
    (VList [VDict [("text", VStr (repeat_char "x" 2000));
                   ("similarity_score", float_lit 1 (-1))]])
    (VList [tiers_entry]).

(** A client that looks at nothing but the URL. *)
Definition by_url (server : string -> raises value)
    : string -> value -> list (string * string) -> Z -> raises value :=
  fun endpoint _ _ _ => server endpoint.


(** A response whose metadata is [null]. *)
Definition null_metadata : value :=
  rag_response (VList [tiers_chunk]) VNone.

(** ** The error monad *)

Lemma bind_ok {A B : Type} (c : raises A) (k : A -> raises B) (b : B) :
  bind c k = Ok b -> exists a, c = Ok a /\ k a = Ok b.
Proof.
  destruct c as [a | e]; simpl; intros H.
  - exists a. split; [reflexivity | exact H].
  - discriminate H.
Qed.

Lemma bind_raise {A B : Type} (c : raises A) (k : A -> raises B) (e : exn) :
  c = Raise e -> bind c k = Raise e.
Proof. intros ->. reflexivity. Qed.

Tactic Notation "bind_inv" hyp(H) "as" ident(a) ident(E) :=
  apply bind_ok in H; destruct H as (a & E & H).

(** ** The built-ins on samples *)

Example str_of_values :
  Py.str (VList [VStr "ab"; VInt (-3); float_lit 1 (-1); VNone; VBool true;
                 VDict [("k", VList [])]])
  = "['ab', -3, 0.5, None, True, {'k': []}]".
Proof. reflexivity. Qed.

Example str_of_floats :
  map Py.str [float_lit 7205759403792794 (-51); float_lit 1 16;
              float_lit 10000000000000000 0; float_lit 1 (-1074);
              float_lit (-5) (-1); VFloat S754_nan]
  = ["3.2"; "65536.0"; "1e+16"; "5e-324"; "-2.5"; "nan"].
Proof. vm_compute. reflexivity. Qed.

Example sum_of_floats :
  (total <- Py.sum [float_lit 7205759403792794 (-56);
                    float_lit 7205759403792794 (-55)] ;;
   Ok (Py.str total))
  = Ok "0.30000000000000004".
Proof. vm_compute. reflexivity. Qed.

Example sum_of_text :
  Py.sum [float_lit 1 (-1); VStr "0.9"]
  = Raise (Exn "TypeError"
             "unsupported operand type(s) for +: 'float' and 'str'").
Proof. reflexivity. Qed.

(** ** The loop *)

Lemma format_chunks_each metadata chunks :
  forall i S0 C0 X0,
    format_chunks metadata i chunks (S0, C0, X0) =
    (items <- format_each metadata i chunks ;;
     Ok ((S0 ++ map section_of items)%list,
         (C0 ++ map citation_of items)%list,
         (X0 ++ map score_of items)%list)).
Proof.
  induction chunks as [| chunk rest IH]; intros i S0 C0 X0; simpl.
  - now rewrite !app_nil_r.
  - destruct (format_chunk metadata i chunk) as [[[s c] x] | e]; simpl;
      [| reflexivity].
    rewrite IH.
    destruct (format_each metadata (S i) rest) as [items | e]; simpl;
      [| reflexivity].
    now rewrite <- !app_assoc.
Qed.

Lemma format_each_length metadata chunks :
  forall i items,
    format_each metadata i chunks = Ok items ->
    List.length items = List.length chunks.
Proof.
  induction chunks as [| chunk rest IH]; intros i items H; simpl in H.
  - now inversion H.
  - bind_inv H as item Hitem. bind_inv H as items' Hitems.
    inversion H; subst. simpl. f_equal. eauto.
Qed.

Lemma format_each_nth metadata chunks :
  forall i items j chunk,
    format_each metadata i chunks = Ok items ->
    nth_error chunks j = Some chunk ->
    exists item,
      nth_error items j = Some item /\
      format_chunk metadata (i + j) chunk = Ok item.
Proof.
  induction chunks as [| c rest IH]; intros i items j chunk H Hj.
  - destruct j; discriminate Hj.
  - simpl in H. bind_inv H as item0 Hitem. bind_inv H as items' Hitems.
    inversion H; subst.
    destruct j as [| j]; simpl in Hj.
    + inversion Hj; subst. exists item0. rewrite Nat.add_0_r. now split.
    + destruct (IH _ _ _ _ Hitems Hj) as (item & Hn & Hf).
      exists item. split; [exact Hn |].
      now rewrite Nat.add_succ_r.
Qed.

(** What a step of the loop returns. *)
Lemma format_chunk_ok metadata i chunk item :
  format_chunk metadata i chunk = Ok item ->
  exists entry,
    Py.index metadata i = Ok entry /\
    Py.get chunk "text" (VStr "") = Ok (content (section_of item)) /\
    Py.get entry "section_number" (VStr "Unknown")
      = Ok (section_number (section_of item)) /\
    Py.get entry "section_title" (VStr "")
      = Ok (section_title (section_of item)) /\
    Py.get entry "page_number" (VInt 0)
      = Ok (page_number (section_of item)) /\
    citation_of item = cite (section_of item) /\
    Py.get chunk "similarity_score" (VFloat (S754_zero false))
      = Ok (score_of item).
Proof.
  unfold format_chunk. intros H.
  bind_inv H as text Htext. bind_inv H as entry Hentry.
  bind_inv H as number Hnumber. bind_inv H as entry2 Hentry2.
  bind_inv H as title Htitle. bind_inv H as entry3 Hentry3.
  bind_inv H as page Hpage. bind_inv H as score Hscore.
  inversion H; subst; clear H.
  rewrite Hentry in Hentry2, Hentry3.
  inversion Hentry2; subst. inversion Hentry3; subst.
  exists entry3. cbn [section_of citation_of score_of fst snd content
                      section_number section_title page_number].
  repeat split; assumption || reflexivity.
Qed.

(** What [_format_response] returns, when it returns. *)
Lemma format_response_ok raw_response original_query answer :
  _format_response raw_response original_query = Ok answer ->
  exists chunks metadata items,
    chunks_of raw_response = Ok chunks /\
    metadata_of raw_response = Ok metadata /\
    format_each metadata 0 chunks = Ok items /\
    query answer = original_query /\
    relevant_sections answer = map section_of items /\
    citations answer = map citation_of items /\
    scores (confidence answer) = map score_of items /\
    _generate_summary (relevant_sections answer) original_query
      = Ok (summary answer) /\
    mean_or_zero (scores (confidence answer))
      = Ok (average (confidence answer)) /\
    source answer = "ACME Corp Procurement Policy v2.1".
Proof.
  unfold _format_response, chunks_of, metadata_of. intros H.
  bind_inv H as result Hresult. bind_inv H as chunks Hchunks.
  bind_inv H as metadata Hmetadata. bind_inv H as items Hitems.
  bind_inv H as filled Hfilled. destruct filled as [[S1 C1] X1].
  bind_inv H as text Htext. bind_inv H as mean Hmean.
  inversion H; subst; clear H.
  rewrite format_chunks_each in Hfilled. bind_inv Hfilled as each Heach.
  inversion Hfilled; subst; clear Hfilled.
  exists items, metadata, each. rewrite Hresult. cbn [bind].
  rewrite Hchunks, Hmetadata. cbn [bind].
  repeat split; assumption || reflexivity.
Qed.

(** A dict has [get], whatever the key. *)
Lemma get_dict d k default :
  exists x, Py.get (VDict d) k default = Ok x.
Proof. simpl. destruct (Py.lookup k d); eauto. Qed.

Lemma get_ok_dict v k default x :
  Py.get v k default = Ok x -> exists d, v = VDict d.
Proof. destruct v; simpl; intros H; try discriminate H. eauto. Qed.

Lemma forallb_nth {A : Type} (f : A -> bool) (l : list A) i x :
  forallb f l = true -> nth_error l i = Some x -> f x = true.
Proof.
  intros H Hn. rewrite forallb_forall in H.
  apply H. eapply nth_error_In; eassumption.
Qed.

Lemma is_dict_true v : is_dict v = true -> exists d, v = VDict d.
Proof. destruct v; simpl; intros H; try discriminate H. eauto. Qed.

(** A response without chunks is answered with the empty answer. *)
Lemma format_response_no_chunks raw_response original_query :
  chunks_of raw_response = Ok [] ->
  _format_response raw_response original_query
  = Ok (empty_answer original_query).
Proof.
  unfold chunks_of, _format_response. intros H.
  bind_inv H as result Hresult. bind_inv H as chunks Hchunks.
  rewrite Hresult. cbn [bind]. rewrite Hchunks. cbn [bind].
  destruct (get_ok_dict _ _ _ _ Hchunks) as (d & ->).
  destruct (get_dict d "metadata" (VList [])) as (metadata & ->).
  cbn [bind]. rewrite H. reflexivity.
Qed.

(** The nesting the formatter makes up for (lines 162-166): no ["outputs"]
    key, an ["outputs"] that is empty, a first output without ["outputs"],
    a result without ["chunks"]. *)
Lemma format_response_no_outputs d original_query :
  Py.lookup "outputs" d = None ->
  _format_response (VDict d) original_query = Ok (empty_answer original_query).
Proof.
  intros H. apply format_response_no_chunks.
  unfold chunks_of, extract_result. simpl. now rewrite H.
Qed.

Lemma format_response_falsy_outputs d outputs original_query :
  Py.lookup "outputs" d = Some outputs ->
  Py.truthy outputs = false ->
  _format_response (VDict d) original_query = Ok (empty_answer original_query).
Proof.
  intros H Hf. apply format_response_no_chunks.
  unfold chunks_of, extract_result. simpl. rewrite H. cbn [bind].
  now rewrite Hf.
Qed.

Lemma format_response_no_inner_outputs d first rest original_query :
  Py.lookup "outputs" d = Some (VList (VDict first :: rest)) ->
  Py.lookup "outputs" first = None ->
  _format_response (VDict d) original_query = Ok (empty_answer original_query).
Proof.
  intros H Hf. apply format_response_no_chunks.
  unfold chunks_of, extract_result. simpl. rewrite H. simpl. now rewrite Hf.
Qed.

Lemma format_response_no_chunks_key d first rest result rest' original_query :
  Py.lookup "outputs" d = Some (VList (VDict first :: rest)) ->
  Py.lookup "outputs" first = Some (VList (VDict result :: rest')) ->
  Py.lookup "chunks" result = None ->
  _format_response (VDict d) original_query = Ok (empty_answer original_query).
Proof.
  intros H Hf Hc. apply format_response_no_chunks.
  unfold chunks_of, extract_result. simpl. rewrite H. simpl. rewrite Hf.
  simpl. now rewrite Hc.
Qed.

(** A metadata entry that is a dict: the step returns, with the default in
    place of each field the entry lacks. *)
Lemma format_chunk_dicts ms i d m :
  nth_error ms i = Some (VDict m) ->
  exists text number title page score,
    format_chunk (VList ms) i (VDict d)
    = Ok ({| content := text; section_number := number;
             section_title := title; page_number := page |},
          cite {| content := text; section_number := number;
                  section_title := title; page_number := page |},
          score) /\
    Py.get (VDict d) "text" (VStr "") = Ok text /\
    Py.get (VDict m) "section_number" (VStr "Unknown") = Ok number /\
    Py.get (VDict m) "section_title" (VStr "") = Ok title /\
    Py.get (VDict m) "page_number" (VInt 0) = Ok page /\
    Py.get (VDict d) "similarity_score" (VFloat (S754_zero false)) = Ok score.
Proof.
  intros Hm.
  destruct (get_dict d "text" (VStr "")) as (text & Htext).
  destruct (get_dict m "section_number" (VStr "Unknown")) as (number & Hn).
  destruct (get_dict m "section_title" (VStr "")) as (title & Ht).
  destruct (get_dict m "page_number" (VInt 0)) as (page & Hp).
  destruct (get_dict d "similarity_score" (VFloat (S754_zero false)))
    as (score & Hs).
  exists text, number, title, page, score.
  unfold format_chunk. rewrite Htext. cbn [bind Py.index].
  rewrite Hm. cbn [bind]. rewrite Hn. cbn [bind]. rewrite Ht. cbn [bind].
  rewrite Hp. cbn [bind]. rewrite Hs. cbn [bind].
  repeat split; reflexivity.
Qed.

(** A metadata list with no entry at index [i]: the step raises. *)
Lemma format_chunk_no_entry ms i d :
  nth_error ms i = None ->
  format_chunk (VList ms) i (VDict d)
  = Raise (Exn "IndexError" "list index out of range").
Proof.
  intros Hm. unfold format_chunk.
  destruct (get_dict d "text" (VStr "")) as (text & ->).
  cbn [bind Py.index]. now rewrite Hm.
Qed.

(** ** Metadata defaults (C1) *)

(** A metadata entry that is present and lacks every field: the defaults
    ["Unknown"], [""] and [0], and the citation ["Section Unknown"]. *)
Lemma format_chunk_partial_entry ms i d :
  nth_error ms i = Some (VDict []) ->
  exists text score,
    format_chunk (VList ms) i (VDict d)
    = Ok ({| content := text; section_number := VStr "Unknown";
             section_title := VStr ""; page_number := VInt 0 |},
          "Section Unknown", score).
Proof.
  intros Hm. destruct (format_chunk_dicts ms i d [] Hm)
    as (text & number & title & page & score & H & _ & Hn & Ht & Hp & _).
  simpl in Hn, Ht, Hp. inversion Hn; inversion Ht; inversion Hp; subst.
  exists text, score. exact H.
Qed.

(** A metadata list shorter than the chunk list: the loop raises at the
    first chunk without an entry, and so does the formatter. *)
Lemma format_each_short ms chunks :
  forall i,
    forallb is_dict chunks = true ->
    forallb is_dict ms = true ->
    (i <= List.length ms < i + List.length chunks)%nat ->
    format_each (VList ms) i chunks
    = Raise (Exn "IndexError" "list index out of range").
Proof.
  induction chunks as [| chunk rest IH]; intros i Hc Hm Hi.
  - simpl in Hi. lia.
  - simpl in Hc. apply andb_prop in Hc. destruct Hc as [Hd Hrest].
    destruct (is_dict_true _ Hd) as (d & ->). simpl.
    destruct (nth_error ms i) as [entry |] eqn:Hn.
    + destruct (is_dict_true entry (forallb_nth _ _ _ _ Hm Hn)) as (m & ->).
      destruct (format_chunk_dicts ms i d m Hn)
        as (text & number & title & page & score & -> & _).
      cbn [bind]. rewrite IH; [reflexivity | assumption | assumption |].
      assert (i < List.length ms)%nat
        by (apply nth_error_Some; congruence).
      simpl in Hi. lia.
    + now rewrite (format_chunk_no_entry ms i d Hn).
Qed.

Lemma format_response_short_metadata cs ms original_query :
  forallb is_dict cs = true ->
  forallb is_dict ms = true ->
  (List.length ms < List.length cs)%nat ->
  _format_response (rag_response (VList cs) (VList ms)) original_query
  = Raise (Exn "IndexError" "list index out of range").
Proof.
  intros Hc Hm Hlen. unfold _format_response, rag_response.
  cbn [extract_result Py.get Py.lookup Py.truthy Py.index Py.iterate bind
       String.eqb Ascii.eqb Bool.eqb List.length Nat.eqb negb nth_error].
  rewrite format_chunks_each, format_each_short; auto.
  lia.
Qed.

(** C1, on the response with one chunk and an empty metadata list: the
    specification asks for a section with the defaults ["Unknown"], [""],
    [0] and the citation ["Section Unknown"]; [_format_response] raises
    [IndexError] at [metadata[0]] instead, and [execute] answers the whole
    request with the error dict. *)
Theorem missing_metadata_entry_fails_request :
  _format_response no_entry "equipment limit for interns"
  = Raise (Exn "IndexError" "list index out of range")
  /\ execute "http://127.0.0.1:7860" "policy-rag-flow"
       (answering no_entry) status_ok body
       "equipment limit for interns" None 3
     = Ok (Failure (_handle_error (Exn "IndexError" "list index out of range")
                      "equipment limit for interns")).
Proof. split; reflexivity. Qed.

(** ** Malformed responses (C2) *)

(** C2, on the response [{"outputs": [{"outputs": []}]}]: the
    specification asks for the answer of an empty chunk list; the outer
    list is guarded by [if outputs], the inner one is not, and
    [_format_response] raises [IndexError] at [[0]]. *)
Theorem empty_inner_outputs_raises :
  forall original_query,
    _format_response empty_inner original_query
    = Raise (Exn "IndexError" "list index out of range").
Proof. intros q. reflexivity. Qed.

(** The same emptiness one level up is guarded (line 163). *)
Example empty_outer_outputs_answered :
  _format_response (VDict [("outputs", VList [])]) "q" = Ok (empty_answer "q").
Proof. reflexivity. Qed.

(** Other shapes the formatter does not make up for. *)
Example null_first_output_raises :
  _format_response (VDict [("outputs", VList [VNone])]) "q"
  = Raise (Exn "AttributeError" "'NoneType' object has no attribute 'get'").
Proof. reflexivity. Qed.

Example number_for_outputs_raises :
  _format_response (VDict [("outputs", VInt 7)]) "q"
  = Raise (Exn "TypeError" "'int' object is not subscriptable").
Proof. reflexivity. Qed.

(** ** The tool boundary (C3) *)



(** A request that is answered. *)
Example execute_two_chunks :
  execute "http://127.0.0.1:7860" "policy-rag-flow"
    (answering two_chunks) status_ok body
    "equipment limit for interns" (Some "3.2") 3
  = Ok (Success two_answer).
Proof. reflexivity. Qed.

(** A transport error for the query ["gaming equipment?"]. *)
Example execute_connection_refused :
  execute "http://127.0.0.1:7860" "policy-rag-flow" refusing status_ok body
    "gaming equipment?" None 3
  = Ok (Failure {| error_query := "gaming equipment?";
                   error := true;
                   error_message := "Connection refused";
                   fallback :=
                     "Unable to retrieve policy information dynamically. Please consult the policy document directly or contact procurement@acme.corp for assistance.";
                   error_relevant_sections := [];
                   error_citations := [] |}).
Proof. reflexivity. Qed.

(** The payload is always built. *)
Lemma build_payload_returns query section_filter top_k :
  exists payload, build_payload query section_filter top_k = Ok payload.
Proof.
  unfold build_payload.
  destruct (Py.truthy (of_optional section_filter)); simpl; eauto.
Qed.

(** What [execute] makes of the outcome of its two calls. *)
Lemma execute_of_run
    (LANGFLOW_URL FLOW_ID : string) (Response : Type)
    (requests_post :
       string -> value -> list (string * string) -> Z -> raises Response)
    (raise_for_status : Response -> raises unit)
    (json : Response -> raises value)
    (query : string) (section_filter : option string) (top_k : Z) (e : exn) :
  (response <- _call_langflow_rag LANGFLOW_URL FLOW_ID requests_post
                 raise_for_status json query section_filter top_k ;;
   _format_response response query) = Raise e ->
  execute LANGFLOW_URL FLOW_ID requests_post raise_for_status json
    query section_filter top_k
  = if is_Exception e
    then Ok (Failure (_handle_error e query))
    else Raise e.
Proof. intros H. unfold execute. now rewrite H. Qed.

(** An exception of [requests.post] that is an [Exception], such as a
    refused connection or a timeout, ends in the error dict; so does one of
    [raise_for_status] and one of [json]. *)
Lemma execute_post_raises
    (LANGFLOW_URL FLOW_ID : string) (Response : Type)
    (requests_post :
       string -> value -> list (string * string) -> Z -> raises Response)
    (raise_for_status : Response -> raises unit)
    (json : Response -> raises value)
    (query : string) (section_filter : option string) (top_k : Z) (e : exn) :
  (forall endpoint payload headers timeout,
      requests_post endpoint payload headers timeout = Raise e) ->
  is_Exception e = true ->
  execute LANGFLOW_URL FLOW_ID requests_post raise_for_status json
    query section_filter top_k
  = Ok (Failure (_handle_error e query)).
Proof.
  intros H He. rewrite (execute_of_run _ _ _ _ _ _ _ _ _ e), He;
    [reflexivity |].
  unfold _call_langflow_rag.
  destruct (build_payload_returns query section_filter top_k) as (p & ->).
  cbn [bind]. now rewrite H.
Qed.

Lemma execute_status_raises
    (LANGFLOW_URL FLOW_ID : string) (Response : Type)
    (requests_post :
       string -> value -> list (string * string) -> Z -> raises Response)
    (raise_for_status : Response -> raises unit)
    (json : Response -> raises value)
    (query : string) (section_filter : option string) (top_k : Z) (e : exn)
    (response : Response) :
  (forall endpoint payload headers timeout,
      requests_post endpoint payload headers timeout = Ok response) ->
  raise_for_status response = Raise e ->
  is_Exception e = true ->
  execute LANGFLOW_URL FLOW_ID requests_post raise_for_status json
    query section_filter top_k
  = Ok (Failure (_handle_error e query)).
Proof.
  intros H Hs He. rewrite (execute_of_run _ _ _ _ _ _ _ _ _ e), He;
    [reflexivity |].
  unfold _call_langflow_rag.
  destruct (build_payload_returns query section_filter top_k) as (p & ->).
  cbn [bind]. rewrite H. cbn [bind]. now rewrite Hs.
Qed.

Lemma execute_json_raises
    (LANGFLOW_URL FLOW_ID : string) (Response : Type)
    (requests_post :
       string -> value -> list (string * string) -> Z -> raises Response)
    (raise_for_status : Response -> raises unit)
    (json : Response -> raises value)
    (query : string) (section_filter : option string) (top_k : Z) (e : exn)
    (response : Response) :
  (forall endpoint payload headers timeout,
      requests_post endpoint payload headers timeout = Ok response) ->
  raise_for_status response = Ok tt ->
  json response = Raise e ->
  is_Exception e = true ->
  execute LANGFLOW_URL FLOW_ID requests_post raise_for_status json
    query section_filter top_k
  = Ok (Failure (_handle_error e query)).
Proof.
  intros H Hs Hj He. rewrite (execute_of_run _ _ _ _ _ _ _ _ _ e), He;
    [reflexivity |].
  unfold _call_langflow_rag.
  destruct (build_payload_returns query section_filter top_k) as (p & ->).
  cbn [bind]. rewrite H. cbn [bind]. rewrite Hs. cbn [bind]. now rewrite Hj.
Qed.

(** An exception of the formatter ends in the error dict too. *)
Lemma execute_format_raises
    (LANGFLOW_URL FLOW_ID : string) (Response : Type)
    (requests_post :
       string -> value -> list (string * string) -> Z -> raises Response)
    (raise_for_status : Response -> raises unit)
    (json : Response -> raises value)
    (query : string) (section_filter : option string) (top_k : Z) (e : exn)
    (raw_response : value) :
  _call_langflow_rag LANGFLOW_URL FLOW_ID requests_post raise_for_status json
    query section_filter top_k = Ok raw_response ->
  _format_response raw_response query = Raise e ->
  is_Exception e = true ->
  execute LANGFLOW_URL FLOW_ID requests_post raise_for_status json
    query section_filter top_k
  = Ok (Failure (_handle_error e query)).
Proof.
  intros H Hf He. rewrite (execute_of_run _ _ _ _ _ _ _ _ _ e), He;
    [reflexivity |].
  rewrite H. cbn [bind]. exact Hf.
Qed.

(** ** The summary rule (C4) *)

Lemma substring_length n :
  forall s, (n <= String.length s)%nat ->
            String.length (substring 0 n s) = n.
Proof.
  induction n as [| n IH]; intros s Hn.
  - destruct s; reflexivity.
  - destruct s as [| c s]; simpl in *; [lia |].
    f_equal. apply IH. lia.
Qed.

Lemma generate_summary_text top rest q c :
  content top = VStr c ->
  _generate_summary (top :: rest) q
  = Ok (if 500 <? Z.of_nat (String.length c)
        then "Based on " ++ Py.str (section_number top) ++ ": "
             ++ substring 0 500 c ++ "..."
        else "Based on Section " ++ Py.str (section_number top) ++ ": " ++ c).
Proof.
  intros Hc. unfold _generate_summary. rewrite Hc.
  cbn [Py.len bind].
  destruct (500 <? Z.of_nat (String.length c)); reflexivity.
Qed.

(** C4: the summary is the fixed sentence for an empty section list, and
    is otherwise made from the first section alone, whatever follows it:
    with [n] its section number and [c] its text,
    ["Based on {n}: {first 500 characters of c}..."] if [c] has more than
    500 characters and ["Based on Section {n}: {c}"] if not.  A text of 501
    characters is cut to its first 500, a text of 500 is left whole. *)
Theorem summary_rule :
  (forall q,
      _generate_summary [] q
      = Ok "No relevant policy sections found for this query.")
  /\ (forall top rest q c,
         content top = VStr c ->
         _generate_summary (top :: rest) q
         = Ok (if 500 <? Z.of_nat (String.length c)
               then "Based on " ++ Py.str (section_number top) ++ ": "
                    ++ substring 0 500 c ++ "..."
               else "Based on Section " ++ Py.str (section_number top) ++ ": "
                    ++ c))
  /\ (forall top rest q c,
         content top = VStr c ->
         String.length c = 501%nat ->
         _generate_summary (top :: rest) q
         = Ok ("Based on " ++ Py.str (section_number top) ++ ": "
               ++ substring 0 500 c ++ "...")
         /\ String.length (substring 0 500 c) = 500%nat
         /\ prefix (substring 0 500 c) c = true)
  /\ (forall top rest q c,
         content top = VStr c ->
         String.length c = 500%nat ->
         _generate_summary (top :: rest) q
         = Ok ("Based on Section " ++ Py.str (section_number top) ++ ": "
               ++ c)).
Proof.
  split; [reflexivity |]. split; [| split].
  - intros. now apply generate_summary_text.
  - intros top rest q c Hc Hlen.
    rewrite (generate_summary_text top rest q c Hc), Hlen.
    split; [reflexivity |]. split.
    + apply substring_length. lia.
    + apply prefix_correct. rewrite substring_length by lia.
      reflexivity.
  - intros top rest q c Hc Hlen.
    rewrite (generate_summary_text top rest q c Hc), Hlen. reflexivity.
Qed.

Lemma summary_rule_witness :
  (_generate_summary
     [section_with (repeat_char "x" 501); section_with "second"] "q"
   = Ok ("Based on 3.2: " ++ repeat_char "x" 500 ++ "..."))
  /\ (_generate_summary
        [section_with (repeat_char "x" 500); section_with "second"] "q"
      = Ok ("Based on Section 3.2: " ++ repeat_char "x" 500)).
Proof.
  split.
  - apply (proj1 (proj1 (proj2 (proj2 summary_rule))
                    (section_with (repeat_char "x" 501))
                    [section_with "second"] "q" (repeat_char "x" 501)
                    eq_refl eq_refl)).
  - apply (proj2 (proj2 (proj2 summary_rule))
             (section_with (repeat_char "x" 500))
             [section_with "second"] "q" (repeat_char "x" 500)
             eq_refl eq_refl).
Defined.

(** ** The request payload (C6, C9) *)

Lemma truthy_nonempty s : s <> "" -> Py.truthy (VStr s) = true.
Proof. destruct s; [congruence | reflexivity]. Qed.

(** The payload built is the one handed to [requests.post]. *)
Lemma call_sends_payload
    (LANGFLOW_URL FLOW_ID : string) (Response : Type)
    (requests_post :
       string -> value -> list (string * string) -> Z -> raises Response)
    (raise_for_status : Response -> raises unit)
    (json : Response -> raises value)
    (query : string) (section_filter : option string) (top_k : Z)
    (payload : value) :
  build_payload query section_filter top_k = Ok payload ->
  _call_langflow_rag LANGFLOW_URL FLOW_ID requests_post raise_for_status json
    query section_filter top_k
  = (response <- requests_post (LANGFLOW_URL ++ "/api/v1/run/" ++ FLOW_ID)
                   payload [("Content-Type", "application/json")] 30 ;;
     _ <- raise_for_status response ;;
     json response).
Proof. intros H. unfold _call_langflow_rag. now rewrite H. Qed.

(** A section filter that is provided as the empty string: the test of
    line 137 is false for it and the payload has no constraint on
    [section_number] under [tweaks.Retriever.filter]. *)
Lemma empty_filter_sends_no_constraint :
  exists payload,
    build_payload "equipment limit for interns" (Some "") 3 = Ok payload
    /\ at_path payload ["tweaks"; "Retriever"; "filter"]
       = Raise (Exn "KeyError" "'filter'")
    /\ ~ (at_path payload ["tweaks"; "Retriever"; "filter"]
           = Ok (VDict [("section_number", VDict [("$eq", VStr "")])])).
Proof.
  eexists. split; [reflexivity |]. split; [reflexivity |].
  intros H. discriminate H.
Qed.

(** C6, as amended: without a section filter the payload built and sent by
    [_call_langflow_rag] is the base payload, with no ["filter"] key
    anywhere in it; with a section filter that is a non-empty string (such
    as ["3.2"]) the payload has, under [tweaks.Retriever.filter], exactly
    [{"section_number": {"$eq": section_filter}}], next to [top_k]. *)
Theorem payload_filter :
  (forall query top_k,
      build_payload query None top_k = Ok (base_payload query top_k)
      /\ mentions_key "filter" (base_payload query top_k) = false
      /\ at_path (base_payload query top_k) ["tweaks"; "Retriever"]
         = Ok (VDict [("top_k", VInt top_k)])
      /\ forall LANGFLOW_URL FLOW_ID (Response : Type)
                (requests_post :
                   string -> value -> list (string * string) -> Z ->
                   raises Response)
                raise_for_status json,
           _call_langflow_rag LANGFLOW_URL FLOW_ID requests_post
             raise_for_status json query None top_k
           = (response <- requests_post
                            (LANGFLOW_URL ++ "/api/v1/run/" ++ FLOW_ID)
                            (base_payload query top_k)
                            [("Content-Type", "application/json")] 30 ;;
              _ <- raise_for_status response ;;
              json response))
  /\ (forall query top_k s,
         s <> "" ->
         exists payload,
           build_payload query (Some s) top_k = Ok payload
           /\ at_path payload ["tweaks"; "Retriever"; "filter"]
              = Ok (VDict [("section_number", VDict [("$eq", VStr s)])])
           /\ at_path payload ["tweaks"; "Retriever"]
              = Ok (VDict [("top_k", VInt top_k);
                           ("filter",
                            VDict [("section_number",
                                    VDict [("$eq", VStr s)])])])
           /\ at_path payload ["input_value"] = Ok (VStr query)
           /\ forall LANGFLOW_URL FLOW_ID (Response : Type)
                     (requests_post :
                        string -> value -> list (string * string) -> Z ->
                        raises Response)
                     raise_for_status json,
                _call_langflow_rag LANGFLOW_URL FLOW_ID requests_post
                  raise_for_status json query (Some s) top_k
                = (response <- requests_post
                                 (LANGFLOW_URL ++ "/api/v1/run/" ++ FLOW_ID)
                                 payload
                                 [("Content-Type", "application/json")] 30 ;;
                   _ <- raise_for_status response ;;
                   json response)).
Proof.
  split.
  - intros query top_k. repeat split; reflexivity.
  - intros query top_k s Hs.
    assert (Hb : build_payload query (Some s) top_k
                 = Ok (VDict
                         [("input_value", VStr query);
                          ("output_type", VStr "chat");
                          ("input_type", VStr "chat");
                          ("tweaks",
                           VDict
                             [("Retriever",
                               VDict
                                 [("top_k", VInt top_k);
                                  ("filter",
                                   VDict [("section_number",
                                           VDict [("$eq", VStr s)])])])])])).
    { unfold build_payload. cbn [of_optional].
      rewrite (truthy_nonempty s Hs). reflexivity. }
    eexists. split; [exact Hb |].
    split; [reflexivity |]. split; [reflexivity |]. split; [reflexivity |].
    intros. now apply call_sends_payload.
Qed.

Lemma payload_filter_witness :
  "3.2" <> ""
  /\ exists payload,
       build_payload "equipment limit for interns" (Some "3.2") 3 = Ok payload
       /\ at_path payload ["tweaks"; "Retriever"; "filter"]
          = Ok (VDict [("section_number", VDict [("$eq", VStr "3.2")])]).
Proof.
  assert (H : "3.2" <> "") by discriminate.
  split; [exact H |].
  destruct (proj2 payload_filter "equipment limit for interns" 3 "3.2" H)
    as (payload & Hp & Hf & _).
  exists payload. split; assumption.
Defined.

(** C9: an empty string as section filter gives the payload of no filter
    at all, without a ["filter"] key, and the same request. *)
Theorem empty_filter_is_no_filter :
  forall query top_k,
    build_payload query (Some "") top_k = build_payload query None top_k
    /\ build_payload query (Some "") top_k = Ok (base_payload query top_k)
    /\ mentions_key "filter" (base_payload query top_k) = false
    /\ forall LANGFLOW_URL FLOW_ID (Response : Type)
              (requests_post :
                 string -> value -> list (string * string) -> Z ->
                 raises Response)
              raise_for_status json,
         _call_langflow_rag LANGFLOW_URL FLOW_ID requests_post
           raise_for_status json query (Some "") top_k
         = _call_langflow_rag LANGFLOW_URL FLOW_ID requests_post
             raise_for_status json query None top_k.
Proof. intros query top_k. repeat split; reflexivity. Qed.

(** ** The formatter on well-formed responses *)

(** With a dict for every chunk and a dict for its metadata entry, every
    step of the loop returns. *)
Lemma format_each_returns ms chunks :
  forall i,
    forallb is_dict chunks = true ->
    (forall j, (j < List.length chunks)%nat ->
               exists m, nth_error ms (i + j) = Some (VDict m)) ->
    exists items, format_each (VList ms) i chunks = Ok items.
Proof.
  induction chunks as [| chunk rest IH]; intros i Hc Hm.
  - exists []. reflexivity.
  - simpl in Hc. apply andb_prop in Hc. destruct Hc as [Hd Hrest].
    destruct (is_dict_true _ Hd) as (d & ->).
    destruct (Hm 0%nat) as (m & Hm0); [simpl; lia |].
    rewrite Nat.add_0_r in Hm0.
    destruct (format_chunk_dicts ms i d m Hm0)
      as (text & number & title & page & score & Hf & _).
    destruct (IH (S i) Hrest) as (items & Hitems).
    { intros j Hj. destruct (Hm (S j)) as (m' & Hm'); [simpl; lia |].
      exists m'. now rewrite Nat.add_succ_r in Hm'. }
    eexists. simpl. rewrite Hf. cbn [bind]. rewrite Hitems. reflexivity.
Qed.

Lemma mean_or_zero_spec confidence_scores :
  mean_or_zero confidence_scores
  = match confidence_scores with
    | [] => Ok (VInt 0)
    | _ :: _ => arithmetic_mean confidence_scores
    end.
Proof. destruct confidence_scores; reflexivity. Qed.

Lemma digits2_pos_iter p k :
  digits2_pos (Pos.iter xO p k) = (digits2_pos p + k)%positive.
Proof.
  induction k as [| k IH] using Pos.peano_ind.
  - simpl. lia.
  - rewrite Pos.iter_succ. simpl. rewrite IH. lia.
Qed.

Lemma digits2_pos_lower p : 2 ^ (Zpos (digits2_pos p) - 1) <= Zpos p.
Proof.
  induction p as [p IH | p IH |]; simpl digits2_pos.
  - replace (Zpos (Pos.succ (digits2_pos p)) - 1)
      with (Z.succ (Zpos (digits2_pos p) - 1)) by lia.
    rewrite Z.pow_succ_r by lia. lia.
  - replace (Zpos (Pos.succ (digits2_pos p)) - 1)
      with (Z.succ (Zpos (digits2_pos p) - 1)) by lia.
    rewrite Z.pow_succ_r by lia. lia.
  - simpl. lia.
Qed.

Lemma digits2_pos_bound p : Zpos p < 2 ^ 53 -> Zpos (digits2_pos p) <= 53.
Proof.
  intros Hp. destruct (Z_le_gt_dec (Zpos (digits2_pos p)) 53) as [H | H];
    [exact H | exfalso].
  pose proof (digits2_pos_lower p) as Hl.
  assert (2 ^ 53 <= 2 ^ (Zpos (digits2_pos p) - 1))
    by (apply Z.pow_le_mono_r; lia).
  lia.
Qed.

(** A mantissa of 53 bits is not rounded. *)
Lemma binary_round_aux_exact mz ez :
  Zpos (digits2_pos mz) = 53 ->
  -1074 <= ez <= 971 ->
  binary_round_aux 53 1024 false (Zpos mz) ez loc_Exact
  = S754_finite false mz ez.
Proof.
  intros Hd He.
  assert (E : fexp 53 1024 (Zdigits2 (Zpos mz) + ez) - ez = 0).
  { unfold fexp, SpecFloat.emin, Zdigits2. rewrite Hd. lia. }
  unfold binary_round_aux, shr_fexp. rewrite E.
  cbn [shr shr_record_of_loc round_nearest_even shr_m loc_of_shr_record].
  rewrite E. cbn [shr shr_m].
  replace (ez <=? 1024 - 53) with true by (symmetry; apply Z.leb_le; lia).
  reflexivity.
Qed.

(** [float(n)] of a count below 2^53 is a finite float, not zero. *)
Lemma float_of_count n :
  0 < n < 2 ^ 53 ->
  exists m e, Py.float_of_int n = Ok (S754_finite false m e).
Proof.
  intros [Hpos Hlt]. destruct n as [| p | p]; try lia.
  pose proof (digits2_pos_bound p Hlt) as Hd.
  unfold Py.float_of_int, binary_normalize, binary_round, Py.prec, Py.emax.
  assert (E : fexp 53 1024 (Zpos (digits2_pos p) + 0)
              = Zpos (digits2_pos p) - 53).
  { unfold fexp, SpecFloat.emin. lia. }
  rewrite E. unfold shl_align. rewrite Z.sub_0_r.
  destruct (Z.pos (digits2_pos p) - 53) as [| k | k] eqn:Ek; try lia.
  - rewrite binary_round_aux_exact by lia. cbn. eauto.
  - rewrite binary_round_aux_exact.
    + cbn. eauto.
    + rewrite digits2_pos_iter. lia.
    + lia.
Qed.

Lemma is_float_true v : is_float v = true -> exists f, v = VFloat f.
Proof. destruct v; simpl; intros H; try discriminate H. eauto. Qed.

Lemma is_str_true v : is_str v = true -> exists s, v = VStr s.
Proof. destruct v; simpl; intros H; try discriminate H. eauto. Qed.

Lemma sum_from_floats l :
  forall t,
    forallb is_float l = true ->
    exists t', Py.sum_from (VFloat t) l = Ok (VFloat t').
Proof.
  induction l as [| x l IH]; intros t Hl.
  - exists t. reflexivity.
  - simpl in Hl. apply andb_prop in Hl. destruct Hl as [Hx Hl].
    destruct (is_float_true x Hx) as (f & ->).
    cbn [Py.sum_from Py.add Py.as_number bind]. now apply IH.
Qed.

(** The average of float scores, fewer than 2^53 of them, is computed. *)
Lemma mean_or_zero_floats confidence_scores :
  forallb is_float confidence_scores = true ->
  Z.of_nat (List.length confidence_scores) < 2 ^ 53 ->
  exists mean, mean_or_zero confidence_scores = Ok mean.
Proof.
  intros Hf Hn. rewrite mean_or_zero_spec.
  destruct confidence_scores as [| x l]; [eauto |].
  unfold arithmetic_mean.
  simpl in Hf. apply andb_prop in Hf. destruct Hf as [Hx Hl].
  destruct (is_float_true x Hx) as (f & ->).
  unfold Py.sum. cbn [Py.sum_from].
  change (Py.add (VInt 0) (VFloat f))
    with (Ok (VFloat (SFadd Py.prec Py.emax (S754_zero false) f))).
  cbn [bind].
  destruct (sum_from_floats l (SFadd Py.prec Py.emax (S754_zero false) f) Hl)
    as (t & ->).
  cbn [bind Py.truediv Py.as_number].
  destruct (float_of_count (Z.of_nat (List.length (VFloat f :: l))))
    as (m & e & ->).
  { split; [cbn [List.length]; lia | exact Hn]. }
  cbn [bind Py.float_div Py.float_is_zero]. eauto.
Qed.

(** The formatter, given the chunk list and the metadata of the response. *)
Lemma format_response_unfold raw_response original_query chunks metadata :
  chunks_of raw_response = Ok chunks ->
  metadata_of raw_response = Ok metadata ->
  _format_response raw_response original_query
  = (items <- format_each metadata 0 chunks ;;
     summary <- _generate_summary (map section_of items) original_query ;;
     average <- mean_or_zero (map score_of items) ;;
     Ok {| query := original_query;
           relevant_sections := map section_of items;
           citations := map citation_of items;
           confidence := {| scores := map score_of items;
                            average := average |};
           summary := summary;
           source := "ACME Corp Procurement Policy v2.1" |}).
Proof.
  unfold chunks_of, metadata_of, _format_response. intros Hc Hm.
  bind_inv Hc as result Hresult. bind_inv Hc as cs Hcs.
  rewrite Hresult in Hm |- *. cbn [bind] in Hm |- *.
  rewrite Hcs, Hm. cbn [bind]. rewrite Hc. cbn [bind].
  rewrite format_chunks_each.
  destruct (format_each metadata 0 chunks) as [items | e]; reflexivity.
Qed.

Lemma format_each_typed metadata chunks :
  forall i items,
    forallb is_chunk_record chunks = true ->
    format_each metadata i chunks = Ok items ->
    forallb is_str (map content (map section_of items)) = true
    /\ forallb is_float (map score_of items) = true.
Proof.
  induction chunks as [| chunk rest IH]; intros i items Hc H; simpl in H.
  - inversion H. split; reflexivity.
  - bind_inv H as item Hitem. bind_inv H as items' Hitems.
    inversion H; subst; clear H.
    simpl in Hc. apply andb_prop in Hc. destruct Hc as [Hrec Hrest].
    destruct (IH _ _ Hrest Hitems) as [IHs IHf].
    destruct (format_chunk_ok _ _ _ _ Hitem)
      as (_ & _ & Htext & _ & _ & _ & _ & Hscore).
    destruct chunk as [| | | | | | d]; try discriminate Hrec.
    simpl in Hrec. apply andb_prop in Hrec. destruct Hrec as [Ht Hs].
    cbn [Py.get] in Htext, Hscore.
    cbn [map forallb]. rewrite IHs, IHf, !andb_true_r. split.
    + destruct (Py.lookup "text" d); inversion Htext as [E];
        [rewrite <- E; exact Ht | reflexivity].
    + destruct (Py.lookup "similarity_score" d); inversion Hscore as [E];
        [rewrite <- E; exact Hs | reflexivity].
Qed.

(** On a response of the data model the formatter returns: N chunk
    records, N metadata dicts, N below 2^53. *)
Theorem format_response_returns raw_response original_query cs ms :
  chunks_of raw_response = Ok cs ->
  metadata_of raw_response = Ok (VList ms) ->
  forallb is_chunk_record cs = true ->
  forallb is_dict ms = true ->
  List.length ms = List.length cs ->
  Z.of_nat (List.length cs) < 2 ^ 53 ->
  exists answer, _format_response raw_response original_query = Ok answer.
Proof.
  intros Hc Hm Hrec Hms Hlen Hn.
  rewrite (format_response_unfold _ _ _ _ Hc Hm).
  destruct (format_each_returns ms cs 0) as (items & Hitems).
  { rewrite forallb_forall in Hrec |- *. intros x Hx.
    specialize (Hrec x Hx). destruct x; try discriminate Hrec. reflexivity. }
  { intros j Hj. simpl.
    destruct (nth_error ms j) as [entry |] eqn:Hnth.
    - destruct (is_dict_true entry (forallb_nth _ _ _ _ Hms Hnth)) as (m & ->).
      eauto.
    - apply nth_error_None in Hnth. lia. }
  rewrite Hitems. cbn [bind].
  destruct (format_each_typed _ _ _ _ Hrec Hitems) as [Hs Hf].
  assert (Hsum : exists text,
             _generate_summary (map section_of items) original_query
             = Ok text).
  { destruct items as [| item items]; [simpl; eauto |].
    simpl in Hs. apply andb_prop in Hs. destruct Hs as [Hs _].
    destruct (is_str_true _ Hs) as (c & Hcontent).
    cbn [map]. rewrite (generate_summary_text _ _ _ c Hcontent). eauto. }
  destruct Hsum as (text & ->). cbn [bind].
  destruct (mean_or_zero_floats (map score_of items) Hf) as (mean & ->).
  { rewrite length_map, (format_each_length _ _ _ _ Hitems). exact Hn. }
  cbn [bind]. eauto.
Qed.

(** ** Order and length (C5) *)

(** C5: for a chunk list [cs] of N dicts and a metadata list [ms] of N
    dicts, the loop returns three lists of length N whose items at each
    index [i] come from the chunk and the metadata entry at [i]; these are
    the [relevant_sections], [citations] and [confidence.scores] of the
    answer, unchanged; and the answer is there when the chunks are records
    of the data model (N below 2^53). *)
Theorem lists_keep_rank_order :
  forall cs ms,
    List.length ms = List.length cs ->
    forallb is_dict cs = true ->
    forallb is_dict ms = true ->
    exists sections cites scores_,
      format_chunks (VList ms) 0 cs ([], [], []) = Ok (sections, cites, scores_)
      /\ List.length sections = List.length cs
      /\ List.length cites = List.length cs
      /\ List.length scores_ = List.length cs
      /\ (forall i chunk entry,
             nth_error cs i = Some chunk ->
             nth_error ms i = Some entry ->
             exists s score,
               nth_error sections i = Some s
               /\ nth_error cites i = Some (cite s)
               /\ nth_error scores_ i = Some score
               /\ Py.get chunk "text" (VStr "") = Ok (content s)
               /\ Py.get entry "section_number" (VStr "Unknown")
                  = Ok (section_number s)
               /\ Py.get entry "section_title" (VStr "")
                  = Ok (section_title s)
               /\ Py.get entry "page_number" (VInt 0) = Ok (page_number s)
               /\ Py.get chunk "similarity_score" (VFloat (S754_zero false))
                  = Ok score)
      /\ (forall raw q a,
             chunks_of raw = Ok cs ->
             metadata_of raw = Ok (VList ms) ->
             _format_response raw q = Ok a ->
             relevant_sections a = sections
             /\ citations a = cites
             /\ scores (confidence a) = scores_)
      /\ (forall raw q,
             chunks_of raw = Ok cs ->
             metadata_of raw = Ok (VList ms) ->
             forallb is_chunk_record cs = true ->
             Z.of_nat (List.length cs) < 2 ^ 53 ->
             exists a,
               _format_response raw q = Ok a
               /\ relevant_sections a = sections
               /\ citations a = cites
               /\ scores (confidence a) = scores_).
Proof.
  intros cs ms Hlen Hcs Hms.
  destruct (format_each_returns ms cs 0 Hcs) as (items & Hitems).
  { intros j Hj. simpl.
    destruct (nth_error ms j) as [entry |] eqn:Hn.
    - destruct (is_dict_true entry (forallb_nth _ _ _ _ Hms Hn)) as (m & ->).
      eauto.
    - apply nth_error_None in Hn. lia. }
  exists (map section_of items), (map citation_of items),
         (map score_of items).
  pose proof (format_each_length _ _ _ _ Hitems) as Hl.
  assert (Hanswer : forall raw q a,
             chunks_of raw = Ok cs ->
             metadata_of raw = Ok (VList ms) ->
             _format_response raw q = Ok a ->
             relevant_sections a = map section_of items
             /\ citations a = map citation_of items
             /\ scores (confidence a) = map score_of items).
  { intros raw q a Hchunks Hmeta Ha.
    destruct (format_response_ok _ _ _ Ha)
      as (cs' & md' & items' & Hc' & Hm' & He' & _ & Hs & Hci & Hsc & _).
    rewrite Hchunks in Hc'. rewrite Hmeta in Hm'.
    inversion Hc'; inversion Hm'; subst.
    rewrite Hitems in He'. inversion He'; subst.
    repeat split; assumption. }
  split; [| split; [| split; [| split; [| split; [| split]]]]].
  - rewrite format_chunks_each, Hitems. reflexivity.
  - now rewrite length_map.
  - now rewrite length_map.
  - now rewrite length_map.
  - intros i chunk entry Hc He.
    destruct (format_each_nth _ _ _ _ _ _ Hitems Hc) as (item & Hn & Hf).
    simpl in Hf.
    destruct (format_chunk_ok _ _ _ _ Hf)
      as (entry' & Hi & Htext & Hnum & Htitle & Hpage & Hcite & Hscore).
    simpl in Hi. rewrite He in Hi. inversion Hi; subst entry'.
    exists (section_of item), (score_of item).
    rewrite !nth_error_map, Hn. simpl. rewrite Hcite.
    repeat split; assumption.
  - exact Hanswer.
  - intros raw q Hchunks Hmeta Hrec Hn.
    destruct (format_response_returns raw q cs ms Hchunks Hmeta Hrec Hms
                Hlen Hn) as (a & Ha).
    exists a. split; [exact Ha |]. now apply (Hanswer raw q a).
Qed.

Lemma lists_keep_rank_order_witness :
  exists sections cites scores_,
    format_chunks (VList [tiers_entry; software_entry]) 0
      [tiers_chunk; software_chunk] ([], [], [])
    = Ok (sections, cites, scores_)
    /\ List.length sections = 2%nat
    /\ List.length cites = 2%nat
    /\ List.length scores_ = 2%nat
    /\ relevant_sections two_answer = sections
    /\ citations two_answer = cites
    /\ scores (confidence two_answer) = scores_
    /\ exists a,
         _format_response two_chunks "equipment limit for interns" = Ok a
         /\ relevant_sections a = sections.
Proof.
  destruct (lists_keep_rank_order [tiers_chunk; software_chunk]
              [tiers_entry; software_entry] eq_refl eq_refl eq_refl)
    as (sections & cites & scores_ & Hf & Hs & Hc & Hx & _ & Ha & He).
  exists sections, cites, scores_.
  destruct (Ha two_chunks "equipment limit for interns" two_answer
              eq_refl eq_refl eq_refl) as (H1 & H2 & H3).
  destruct (He two_chunks "equipment limit for interns"
              eq_refl eq_refl eq_refl eq_refl) as (a & Ha1 & Ha2 & _).
  repeat split; try assumption.
  exists a. split; assumption.
Defined.

(** ** The average confidence (C7) *)

(** C7: in every answer, [confidence.average] is the arithmetic mean of
    [confidence.scores] (their sum divided by their count) if there are
    scores, and the int 0 if there are none; an empty chunk list is
    answered, with average 0, although the mean of no scores would be a
    division by zero. *)
Theorem average_is_mean :
  (forall raw q a,
      _format_response raw q = Ok a ->
      (scores (confidence a) = [] -> average (confidence a) = VInt 0)
      /\ (scores (confidence a) <> [] ->
          arithmetic_mean (scores (confidence a))
          = Ok (average (confidence a))))
  /\ (forall raw q,
         chunks_of raw = Ok [] ->
         exists a,
           _format_response raw q = Ok a
           /\ scores (confidence a) = []
           /\ average (confidence a) = VInt 0)
  /\ arithmetic_mean [] = Raise (Exn "ZeroDivisionError" "division by zero").
Proof.
  split; [| split].
  - intros raw q a Ha.
    destruct (format_response_ok _ _ _ Ha)
      as (cs & md & items & _ & _ & _ & _ & _ & _ & _ & _ & Hmean & _).
    rewrite mean_or_zero_spec in Hmean.
    destruct (scores (confidence a)) as [| x xs].
    + split; [intros _; now inversion Hmean | congruence].
    + split; [discriminate | intros _; exact Hmean].
  - intros raw q Hc. exists (empty_answer q).
    split; [now apply format_response_no_chunks |]. split; reflexivity.
  - reflexivity.
Qed.

Lemma average_is_mean_witness :
  _format_response two_chunks "equipment limit for interns" = Ok two_answer
  /\ scores (confidence two_answer) = [float_lit 7 (-3); float_lit 1 (-1)]
  /\ arithmetic_mean [float_lit 7 (-3); float_lit 1 (-1)]
     = Ok (float_lit 11 (-4))
  /\ arithmetic_mean (scores (confidence two_answer))
     = Ok (average (confidence two_answer))
  /\ chunks_of (VDict []) = Ok []
  /\ exists a,
       _format_response (VDict []) "q" = Ok a
       /\ scores (confidence a) = []
       /\ average (confidence a) = VInt 0.
Proof.
  split; [reflexivity |]. split; [reflexivity |]. split; [reflexivity |].
  split.
  - apply (proj1 average_is_mean two_chunks "equipment limit for interns"
             two_answer eq_refl).
    discriminate.
  - split; [reflexivity |].
    apply (proj1 (proj2 average_is_mean) (VDict []) "q" eq_refl).
Defined.

(** Scores that are ints: the average is a float all the same. *)
Example mean_of_ints :
  arithmetic_mean [VInt 1; VInt 2] = Ok (float_lit 3 (-1)).
Proof. reflexivity. Qed.

(** ** Citations (C8) *)

Lemma cite_spec s t :
  section_title s = VStr t -> cite s = spec_citation (section_number s) t.
Proof.
  intros Ht. unfold cite, spec_citation. rewrite Ht.
  destruct t; reflexivity.
Qed.

Lemma format_each_cited metadata chunks :
  forall i items,
    format_each metadata i chunks = Ok items ->
    map citation_of items = map cite (map section_of items).
Proof.
  induction chunks as [| chunk rest IH]; intros i items H; simpl in H.
  - inversion H. reflexivity.
  - bind_inv H as item Hitem. bind_inv H as items' Hitems.
    inversion H; subst. simpl.
    destruct (format_chunk_ok _ _ _ _ Hitem) as (_ & _ & _ & _ & _ & _ & -> & _).
    f_equal. eauto.
Qed.

(** C8: in every answer there is one citation per section, and the
    citation at index [i] is the one of the section at index [i]:
    ["Section {section_number}"] if the section's title is the empty
    string, ["Section {section_number} ({section_title})"] if it is a
    non-empty string. *)
Theorem citations_match_sections :
  forall raw q a,
    _format_response raw q = Ok a ->
    List.length (citations a) = List.length (relevant_sections a)
    /\ forall i s,
         nth_error (relevant_sections a) i = Some s ->
         nth_error (citations a) i = Some (cite s)
         /\ (section_title s = VStr "" ->
             cite s = "Section " ++ Py.str (section_number s))
         /\ (forall t,
                section_title s = VStr t -> t <> "" ->
                cite s = "Section " ++ Py.str (section_number s)
                         ++ " (" ++ t ++ ")")
         /\ (forall t,
                section_title s = VStr t ->
                cite s = spec_citation (section_number s) t).
Proof.
  intros raw q a Ha.
  destruct (format_response_ok _ _ _ Ha)
    as (cs & md & items & _ & _ & He & _ & Hs & Hc & _).
  rewrite Hc, Hs, (format_each_cited _ _ _ _ He).
  split; [now rewrite !length_map |].
  intros i s Hn. split; [| split; [| split]].
  - rewrite nth_error_map, Hn. reflexivity.
  - intros Ht. now rewrite (cite_spec s "" Ht).
  - intros t Ht Hne. rewrite (cite_spec s t Ht). unfold spec_citation.
    destruct t; [congruence | reflexivity].
  - intros t. apply cite_spec.
Qed.

Lemma citations_match_sections_witness :
  _format_response two_chunks "equipment limit for interns" = Ok two_answer
  /\ citations two_answer = ["Section 3.2 (Equipment Tiers)"; "Section 4.1"]
  /\ nth_error (citations two_answer) 0
     = Some (cite (section_with "Interns may order equipment up to $1,500."))
  /\ cite (section_with "Interns may order equipment up to $1,500.")
     = "Section 3.2 (Equipment Tiers)".
Proof.
  split; [reflexivity |]. split; [reflexivity |].
  pose proof (proj2 (citations_match_sections two_chunks
                       "equipment limit for interns" two_answer eq_refl)
                0%nat (section_with "Interns may order equipment up to $1,500.")
                eq_refl) as (Hn & _ & Hc & _).
  split; [exact Hn |].
  apply (Hc "Equipment Tiers" eq_refl). discriminate.
Defined.

(** ** A chunk without text (C10) *)

(** C10: a chunk dict without ["text"] gives a section with the empty
    string as [content]: its step of the loop returns (given a dict as
    metadata entry), and a summary made from this section is
    ["Based on Section {section_number}: "].  So it is in every answer: the
    section at the index of such a chunk has [content] [""], and if the
    chunk is the first one the summary is as said. *)
Theorem missing_text_is_empty_content :
  (forall metadata i d entry,
      Py.lookup "text" d = None ->
      Py.index metadata i = Ok (VDict entry) ->
      exists s score,
        format_chunk metadata i (VDict d) = Ok (s, cite s, score)
        /\ content s = VStr ""
        /\ forall rest q,
             _generate_summary (s :: rest) q
             = Ok ("Based on Section " ++ Py.str (section_number s) ++ ": "))
  /\ (forall raw q a chunks i d,
         _format_response raw q = Ok a ->
         chunks_of raw = Ok chunks ->
         nth_error chunks i = Some (VDict d) ->
         Py.lookup "text" d = None ->
         exists s,
           nth_error (relevant_sections a) i = Some s
           /\ content s = VStr ""
           /\ (i = 0%nat ->
               summary a
               = "Based on Section " ++ Py.str (section_number s) ++ ": ")).
Proof.
  split.
  - intros metadata i d entry Hd Hi.
    destruct (get_dict entry "section_number" (VStr "Unknown")) as (n & Hn).
    destruct (get_dict entry "section_title" (VStr "")) as (t & Ht).
    destruct (get_dict entry "page_number" (VInt 0)) as (p & Hp).
    destruct (get_dict d "similarity_score" (VFloat (S754_zero false)))
      as (score & Hs).
    exists {| content := VStr ""; section_number := n;
              section_title := t; page_number := p |}, score.
    split; [| split].
    + unfold format_chunk. cbn [Py.get]. rewrite Hd. cbn [bind].
      rewrite Hi. cbn [bind]. rewrite Hn. cbn [bind]. rewrite Ht.
      cbn [bind]. rewrite Hp. cbn [bind].
      cbn [Py.get] in Hs. rewrite Hs. reflexivity.
    + reflexivity.
    + intros rest q. reflexivity.
  - intros raw q a chunks i d Ha Hc Hn Hd.
    destruct (format_response_ok _ _ _ Ha)
      as (cs & md & items & Hc' & _ & He & _ & Hs & _ & _ & Hsum & _).
    rewrite Hc in Hc'. inversion Hc'; subst cs.
    destruct (format_each_nth _ _ _ _ _ _ He Hn) as (item & Hitem & Hf).
    destruct (format_chunk_ok _ _ _ _ Hf) as (_ & _ & Htext & _).
    cbn [Py.get] in Htext. rewrite Hd in Htext. inversion Htext as [Hcontent].
    exists (section_of item). rewrite Hs, nth_error_map, Hitem.
    split; [reflexivity |]. split; [now symmetry |].
    intros ->. rewrite Hs in Hsum.
    destruct items as [| item0 items]; [discriminate Hitem |].
    simpl in Hitem. inversion Hitem; subst item0.
    cbn [map] in Hsum.
    rewrite (generate_summary_text _ _ _ "" (eq_sym Hcontent)) in Hsum.
    simpl in Hsum. inversion Hsum. reflexivity.
Qed.

Lemma missing_text_is_empty_content_witness :
  _format_response bare_first "vendor requirements" = Ok bare_answer
  /\ exists s,
       nth_error (relevant_sections bare_answer) 0 = Some s
       /\ content s = VStr ""
       /\ summary bare_answer = "Based on Section 5.3: ".
Proof.
  split; [reflexivity |].
  destruct (proj2 missing_text_is_empty_content bare_first
              "vendor requirements" bare_answer
              [bare_chunk; tiers_chunk] 0%nat
              [("similarity_score", float_lit 1 (-2))]
              eq_refl eq_refl eq_refl eq_refl) as (s & Hn & Hc & Hs).
  exists s. split; [exact Hn |]. split; [exact Hc |].
  reflexivity.
Defined.

(** ** Further properties of the formatter *)

(** X1: Nesting the formatter makes up for: no ["outputs"] key; an ["outputs"]
    that is empty, [null], [0] or [false]; a first output without
    ["outputs"]; a result without ["chunks"].  Each gives the answer of an
    empty chunk list. *)
Theorem missing_keys_give_empty_answer :
  forall d original_query,
    (Py.lookup "outputs" d = None
     \/ (exists outputs,
            Py.lookup "outputs" d = Some outputs
            /\ Py.truthy outputs = false)
     \/ (exists first rest,
            Py.lookup "outputs" d = Some (VList (VDict first :: rest))
            /\ (Py.lookup "outputs" first = None
                \/ exists result rest',
                     Py.lookup "outputs" first
                     = Some (VList (VDict result :: rest'))
                     /\ Py.lookup "chunks" result = None))) ->
    _format_response (VDict d) original_query
    = Ok (empty_answer original_query).
Proof.
  intros d q [H | [(outputs & H & Hf) | (first & rest & H & Hi)]].
  - now apply format_response_no_outputs.
  - now apply (format_response_falsy_outputs d outputs).
  - destruct Hi as [Hi | (result & rest' & Hi & Hc)].
    + now apply (format_response_no_inner_outputs d first rest).
    + now apply (format_response_no_chunks_key d first rest result rest').
Qed.

Lemma missing_keys_give_empty_answer_witness :
  _format_response (VDict [("session_id", VStr "s-1")]) "q"
  = Ok (empty_answer "q")
  /\ _format_response (VDict [("outputs", VNone)]) "q" = Ok (empty_answer "q")
  /\ _format_response
       (VDict [("outputs",
                VList [VDict [("outputs",
                               VList [VDict [("metadata", VList [])]])]])])
       "q"
     = Ok (empty_answer "q").
Proof.
  split; [| split].
  - apply missing_keys_give_empty_answer. left. reflexivity.
  - apply missing_keys_give_empty_answer. right. left.
    exists VNone. split; reflexivity.
  - apply missing_keys_give_empty_answer. right. right.
    eexists. eexists. split; [reflexivity |]. right.
    eexists. eexists. split; reflexivity.
Defined.

(** X2: Only the first output and its first inner output are read: two
    responses that agree on that result get the same answer (or the same
    exception), whatever else they hold. *)
Theorem only_first_result_is_read :
  forall d d' first first' result rest rest' more more' original_query,
    Py.lookup "outputs" d = Some (VList (VDict first :: rest)) ->
    Py.lookup "outputs" d' = Some (VList (VDict first' :: rest')) ->
    Py.lookup "outputs" first = Some (VList (result :: more)) ->
    Py.lookup "outputs" first' = Some (VList (result :: more')) ->
    _format_response (VDict d) original_query
    = _format_response (VDict d') original_query.
Proof.
  intros d d' first first' result rest rest' more more' q H H' Hf Hf'.
  unfold _format_response, extract_result.
  cbn [Py.get]. rewrite H, H'.
  cbn [bind Py.truthy List.length Nat.eqb negb Py.index nth_error Py.get].
  rewrite Hf, Hf'. reflexivity.
Qed.

Lemma only_first_result_is_read_witness :
  _format_response two_chunks_and_more "equipment limit for interns"
  = _format_response two_chunks "equipment limit for interns"
  /\ _format_response two_chunks_and_more "equipment limit for interns"
     = Ok two_answer.
Proof.
  split; [| reflexivity].
  unfold two_chunks_and_more, two_chunks, rag_response.
  eapply only_first_result_is_read; reflexivity.
Defined.

Lemma format_chunk_surplus ms extra i chunk :
  (i < List.length ms)%nat ->
  format_chunk (VList (ms ++ extra)) i chunk = format_chunk (VList ms) i chunk.
Proof.
  intros Hi. unfold format_chunk. cbn [Py.index].
  now rewrite (nth_error_app1 ms extra Hi).
Qed.

Lemma format_each_surplus ms extra chunks :
  forall i,
    (i + List.length chunks <= List.length ms)%nat ->
    format_each (VList (ms ++ extra)) i chunks
    = format_each (VList ms) i chunks.
Proof.
  induction chunks as [| chunk rest IH]; intros i Hi; [reflexivity |].
  simpl in Hi. cbn [format_each].
  rewrite format_chunk_surplus by lia. rewrite IH by lia. reflexivity.
Qed.

(** X3: Metadata entries beyond the last chunk are never read: with at least
    as many entries as chunks, more entries change nothing. *)
Theorem surplus_metadata_is_ignored :
  forall raw raw' cs ms extra original_query,
    chunks_of raw = Ok cs ->
    chunks_of raw' = Ok cs ->
    metadata_of raw = Ok (VList ms) ->
    metadata_of raw' = Ok (VList (ms ++ extra)) ->
    (List.length cs <= List.length ms)%nat ->
    _format_response raw' original_query
    = _format_response raw original_query.
Proof.
  intros raw raw' cs ms extra q Hc Hc' Hm Hm' Hlen.
  rewrite (format_response_unfold _ _ _ _ Hc Hm),
    (format_response_unfold _ _ _ _ Hc' Hm').
  now rewrite format_each_surplus.
Qed.

Lemma surplus_metadata_is_ignored_witness :
  _format_response two_chunks_surplus "equipment limit for interns"
  = _format_response two_chunks "equipment limit for interns".
Proof.
  apply (surplus_metadata_is_ignored two_chunks two_chunks_surplus
           [tiers_chunk; software_chunk] [tiers_entry; software_entry]
           [vendor_entry]); solve [reflexivity | simpl; lia].
Defined.

(** X4: An answer is only ever built from objects: when the formatter returns,
    every chunk was a dict and had, at its own index, a metadata entry that
    was a dict; and the three lists of the answer are as long as the chunk
    list. *)
Theorem answer_needs_objects :
  forall raw original_query a,
    _format_response raw original_query = Ok a ->
    exists cs metadata,
      chunks_of raw = Ok cs
      /\ metadata_of raw = Ok metadata
      /\ List.length (relevant_sections a) = List.length cs
      /\ List.length (citations a) = List.length cs
      /\ List.length (scores (confidence a)) = List.length cs
      /\ forall i chunk,
           nth_error cs i = Some chunk ->
           is_dict chunk = true
           /\ exists entry,
                Py.index metadata i = Ok entry /\ is_dict entry = true.
Proof.
  intros raw q a Ha.
  destruct (format_response_ok _ _ _ Ha)
    as (cs & md & items & Hc & Hm & He & _ & Hs & Hci & Hsc & _).
  exists cs, md. rewrite Hs, Hci, Hsc, !length_map.
  rewrite (format_each_length _ _ _ _ He).
  split; [exact Hc |]. split; [exact Hm |].
  split; [reflexivity |]. split; [reflexivity |]. split; [reflexivity |].
  intros i chunk Hn.
  destruct (format_each_nth _ _ _ _ _ _ He Hn) as (item & _ & Hf).
  destruct (format_chunk_ok _ _ _ _ Hf) as (entry & Hi & Htext & Hnum & _).
  split.
  - destruct (get_ok_dict _ _ _ _ Htext) as (d & ->). reflexivity.
  - exists entry. split; [exact Hi |].
    destruct (get_ok_dict _ _ _ _ Hnum) as (d & ->). reflexivity.
Qed.

Lemma answer_needs_objects_witness :
  _format_response two_chunks "equipment limit for interns" = Ok two_answer
  /\ exists cs metadata,
       chunks_of two_chunks = Ok cs
       /\ metadata_of two_chunks = Ok metadata
       /\ List.length (relevant_sections two_answer) = List.length cs.
Proof.
  split; [reflexivity |].
  destruct (answer_needs_objects two_chunks "equipment limit for interns"
              two_answer eq_refl) as (cs & md & Hc & Hm & Hl & _).
  exists cs, md. repeat split; assumption.
Defined.

Lemma add_ok x y z :
  Py.add x y = Ok z ->
  is_number x = true /\ is_number y = true /\ is_number z = true.
Proof.
  unfold Py.add, is_number.
  destruct (Py.as_number x) as [[a | f] |], (Py.as_number y) as [[b | g] |];
    intros H; try discriminate H.
  - inversion H. repeat split.
  - bind_inv H as r Hr. inversion H. repeat split.
  - bind_inv H as r Hr. inversion H. repeat split.
  - inversion H. repeat split.
Qed.

Lemma sum_from_ok l :
  forall total t,
    Py.sum_from total l = Ok t ->
    is_number total = true ->
    forallb is_number l = true /\ is_number t = true.
Proof.
  induction l as [| x l IH]; intros total t H Ht; simpl in H.
  - inversion H; subst. now split.
  - bind_inv H as r Hr.
    destruct (add_ok _ _ _ Hr) as (_ & Hx & Hrn).
    destruct (IH _ _ H Hrn) as [Hl Htn].
    cbn [forallb]. now rewrite Hx, Hl.
Qed.

Lemma truediv_ok x y z :
  Py.truediv x y = Ok z -> exists f, z = VFloat f.
Proof.
  unfold Py.truediv, Py.float_div.
  destruct (Py.as_number x) as [[a | f] |], (Py.as_number y) as [[b | g] |];
    intros H; try discriminate H.
  - destruct (b =? 0); [discriminate H |].
    destruct (Py.float_is_infinite _); inversion H. eauto.
  - bind_inv H as r Hr.
    destruct (Py.float_is_zero g); inversion H. eauto.
  - bind_inv H as r Hr.
    destruct (Py.float_is_zero r); inversion H. eauto.
  - destruct (Py.float_is_zero g); inversion H. eauto.
Qed.

(** X5: In every answer the scores are numbers (int, bool or float: anything
    else makes [sum] raise), and with at least one score the average is a
    float, also when all scores are ints. *)
Theorem scores_are_numbers :
  forall raw original_query a,
    _format_response raw original_query = Ok a ->
    forallb is_number (scores (confidence a)) = true
    /\ (scores (confidence a) <> [] ->
        exists f, average (confidence a) = VFloat f).
Proof.
  intros raw q a Ha.
  destruct (format_response_ok _ _ _ Ha)
    as (cs & md & items & _ & _ & _ & _ & _ & _ & _ & _ & Hmean & _).
  rewrite mean_or_zero_spec in Hmean.
  destruct (scores (confidence a)) as [| x l]; [split; [reflexivity | congruence] |].
  unfold arithmetic_mean in Hmean. bind_inv Hmean as total Htotal.
  destruct (sum_from_ok _ _ _ Htotal eq_refl) as [Hl _].
  split; [exact Hl |]. intros _. eapply truediv_ok. exact Hmean.
Qed.

Lemma scores_are_numbers_witness :
  _format_response two_chunks "equipment limit for interns" = Ok two_answer
  /\ forallb is_number (scores (confidence two_answer)) = true
  /\ exists f, average (confidence two_answer) = VFloat f.
Proof.
  split; [reflexivity |].
  destruct (scores_are_numbers two_chunks "equipment limit for interns"
              two_answer eq_refl) as [Hn Hf].
  split; [exact Hn |]. apply Hf. discriminate.
Defined.

(** ** Responses that fail *)

Lemma format_each_first_failure metadata good bad rest e :
  forall i,
    (forall j c, nth_error good j = Some c ->
                 exists item, format_chunk metadata (i + j) c = Ok item) ->
    format_chunk metadata (i + List.length good) bad = Raise e ->
    format_each metadata i (good ++ bad :: rest)%list = Raise e.
Proof.
  induction good as [| c good IH]; intros i Hgood Hbad.
  - simpl in *. rewrite Nat.add_0_r in Hbad. now rewrite Hbad.
  - cbn [app format_each].
    destruct (Hgood 0%nat c eq_refl) as (item & Hitem).
    rewrite Nat.add_0_r in Hitem. rewrite Hitem. cbn [bind].
    rewrite (IH (S i)); [reflexivity | |].
    + intros j c' Hj. destruct (Hgood (S j) c' Hj) as (item' & H').
      exists item'. now rewrite Nat.add_succ_r in H'.
    + simpl in Hbad. now rewrite Nat.add_succ_r in Hbad.
Qed.

Lemma format_chunks_good good goodm restm :
  forallb is_dict good = true ->
  forallb is_dict goodm = true ->
  List.length goodm = List.length good ->
  forall j c,
    nth_error good j = Some c ->
    exists item, format_chunk (VList (goodm ++ restm)%list) (0 + j) c = Ok item.
Proof.
  intros Hg Hm Hlen j c Hj.
  destruct (is_dict_true c (forallb_nth _ _ _ _ Hg Hj)) as (d & ->).
  assert (Hlt : (j < List.length goodm)%nat).
  { rewrite Hlen. apply nth_error_Some. congruence. }
  destruct (nth_error goodm j) as [entry |] eqn:Hn;
    [| apply nth_error_None in Hn; lia].
  destruct (is_dict_true entry (forallb_nth _ _ _ _ Hm Hn)) as (m & ->).
  destruct (format_chunk_dicts (goodm ++ restm)%list j d m)
    as (text & number & title & page & score & Hf & _).
  { now rewrite nth_error_app1. }
  simpl. eauto.
Qed.

Lemma format_response_raises raw original_query chunks metadata e :
  chunks_of raw = Ok chunks ->
  metadata_of raw = Ok metadata ->
  format_each metadata 0 chunks = Raise e ->
  _format_response raw original_query = Raise e.
Proof.
  intros Hc Hm He.
  rewrite (format_response_unfold _ _ _ _ Hc Hm), He. reflexivity.
Qed.

(** X6: A chunk that is not an object (a bare string, a number, [null]) fails
    the whole request with the [AttributeError] of its [get], wherever it
    stands in the list: the chunks before it do not make an answer of
    their own. *)
Theorem chunk_that_is_no_object_fails :
  forall raw original_query good bad rest goodm restm,
    chunks_of raw = Ok (good ++ bad :: rest)%list ->
    metadata_of raw = Ok (VList (goodm ++ restm)%list) ->
    forallb is_dict good = true ->
    forallb is_dict goodm = true ->
    List.length goodm = List.length good ->
    is_dict bad = false ->
    _format_response raw original_query
    = Raise (Exn "AttributeError"
               ("'" ++ Py.type_name bad ++ "' object has no attribute 'get'")).
Proof.
  intros raw q good bad rest goodm restm Hc Hm Hg Hgm Hlen Hbad.
  apply (format_response_raises _ _ _ _ _ Hc Hm).
  apply format_each_first_failure.
  - now apply format_chunks_good.
  - unfold format_chunk. destruct bad; try reflexivity. discriminate Hbad.
Qed.

Lemma chunk_that_is_no_object_fails_witness :
  _format_response string_chunk "software approval thresholds"
  = Raise (Exn "AttributeError" "'str' object has no attribute 'get'").
Proof.
  apply (chunk_that_is_no_object_fails string_chunk
           "software approval thresholds" [tiers_chunk]
           (VStr "Software needs approval.") []
           [tiers_entry] [software_entry]); reflexivity.
Defined.

(** X7: A metadata entry that is not an object (such as [null]) fails the
    whole request in the same way, at the chunk of its index. *)
Theorem entry_that_is_no_object_fails :
  forall raw original_query good d rest goodm bad restm,
    chunks_of raw = Ok (good ++ VDict d :: rest)%list ->
    metadata_of raw = Ok (VList (goodm ++ bad :: restm)%list) ->
    forallb is_dict good = true ->
    forallb is_dict goodm = true ->
    List.length goodm = List.length good ->
    is_dict bad = false ->
    _format_response raw original_query
    = Raise (Exn "AttributeError"
               ("'" ++ Py.type_name bad ++ "' object has no attribute 'get'")).
Proof.
  intros raw q good d rest goodm bad restm Hc Hm Hg Hgm Hlen Hbad.
  apply (format_response_raises _ _ _ _ _ Hc Hm).
  apply format_each_first_failure.
  - now apply format_chunks_good.
  - unfold format_chunk.
    destruct (get_dict d "text" (VStr "")) as (text & ->).
    cbn [bind Py.index]. rewrite nth_error_app2 by lia.
    rewrite Nat.add_0_l, <- Hlen, Nat.sub_diag. cbn [nth_error bind].
    destruct bad; try reflexivity. discriminate Hbad.
Qed.

Lemma entry_that_is_no_object_fails_witness :
  _format_response null_entry "software approval thresholds"
  = Raise (Exn "AttributeError" "'NoneType' object has no attribute 'get'").
Proof.
  apply (entry_that_is_no_object_fails null_entry
           "software approval thresholds" [tiers_chunk]
           [("text", VStr "Software above $10,000 needs VP approval.");
            ("similarity_score", float_lit 1 (-1))] []
           [tiers_entry] VNone []); reflexivity.
Defined.

Lemma dict_entries ms n :
  forallb is_dict ms = true ->
  (n <= List.length ms)%nat ->
  forall j, (j < n)%nat -> exists m, nth_error ms (0 + j) = Some (VDict m).
Proof.
  intros Hms Hn j Hj. simpl.
  destruct (nth_error ms j) as [entry |] eqn:Hnth.
  - destruct (is_dict_true entry (forallb_nth _ _ _ _ Hms Hnth)) as (m & ->).
    eauto.
  - apply nth_error_None in Hnth. lia.
Qed.

Lemma len_unsized v :
  is_sized v = false ->
  Py.len v
  = Raise (Exn "TypeError"
             ("object of type '" ++ Py.type_name v ++ "' has no len()")).
Proof. destruct v; simpl; intros H; try discriminate H; reflexivity. Qed.

(** X9: A first chunk whose ["text"] is there but has no length ([null], a
    number, a bool) fails the whole request at the summary, although every
    step of the loop returned: the default [""] stands in for a missing
    key only. *)
Theorem first_text_without_length_fails :
  forall raw original_query d rest ms v,
    chunks_of raw = Ok (VDict d :: rest) ->
    metadata_of raw = Ok (VList ms) ->
    forallb is_dict rest = true ->
    forallb is_dict ms = true ->
    (List.length (VDict d :: rest) <= List.length ms)%nat ->
    Py.lookup "text" d = Some v ->
    is_sized v = false ->
    _format_response raw original_query
    = Raise (Exn "TypeError"
               ("object of type '" ++ Py.type_name v ++ "' has no len()")).
Proof.
  intros raw q d rest ms v Hc Hm Hrest Hms Hlen Ht Hv.
  rewrite (format_response_unfold _ _ _ _ Hc Hm).
  destruct (format_each_returns ms (VDict d :: rest) 0) as (items & Hitems).
  { cbn [forallb is_dict]. exact Hrest. }
  { now apply dict_entries. }
  rewrite Hitems. cbn [bind].
  destruct (format_each_nth _ _ _ _ 0%nat _ Hitems eq_refl)
    as (item & Hn & Hf).
  destruct (format_chunk_ok _ _ _ _ Hf) as (_ & _ & Htext & _).
  cbn [Py.get] in Htext. rewrite Ht in Htext. inversion Htext as [Hcontent].
  destruct items as [| item0 items]; [discriminate Hn |].
  simpl in Hn. inversion Hn; subst item0.
  cbn [map _generate_summary]. rewrite <- Hcontent, (len_unsized v Hv).
  reflexivity.
Qed.

Lemma first_text_without_length_fails_witness :
  _format_response null_text_first "vendor requirements"
  = Raise (Exn "TypeError" "object of type 'NoneType' has no len()").
Proof.
  apply (first_text_without_length_fails null_text_first
           "vendor requirements"
           [("text", VNone); ("similarity_score", float_lit 1 (-1))]
           [tiers_chunk] [vendor_entry; tiers_entry] VNone);
    solve [reflexivity | simpl; lia].
Defined.

(** X10: A ["chunks"] value that cannot be gone through ([null], a number, a
    bool) fails the request with a [TypeError]; the default [[]] stands in
    for a missing key only. *)
Theorem chunks_that_are_no_list_fail :
  forall raw original_query result v,
    extract_result raw = Ok (VDict result) ->
    Py.lookup "chunks" result = Some v ->
    is_sized v = false ->
    _format_response raw original_query
    = Raise (Exn "TypeError"
               ("'" ++ Py.type_name v ++ "' object is not iterable")).
Proof.
  intros raw q result v Hr Hc Hv. unfold _format_response.
  rewrite Hr. cbn [bind Py.get]. rewrite Hc. cbn [bind].
  destruct (Py.lookup "metadata" result); cbn [bind];
    destruct v; try discriminate Hv; reflexivity.
Qed.

Lemma chunks_that_are_no_list_fail_witness :
  _format_response number_chunks "q"
  = Raise (Exn "TypeError" "'int' object is not iterable").
Proof.
  apply (chunks_that_are_no_list_fail number_chunks "q"
           [("chunks", VInt 3); ("metadata", VList [])] (VInt 3));
    reflexivity.
Defined.

(** X8: With at least one chunk, whatever [metadata[0]] raises is what the
    request fails with: [IndexError] for an empty list, [TypeError] for
    [null] or a number, [KeyError] for an object. *)
Theorem metadata_without_first_entry_fails :
  forall raw original_query d rest metadata e,
    chunks_of raw = Ok (VDict d :: rest) ->
    metadata_of raw = Ok metadata ->
    Py.index metadata 0 = Raise e ->
    _format_response raw original_query = Raise e.
Proof.
  intros raw q d rest metadata e Hc Hm Hi.
  apply (format_response_raises _ _ _ _ _ Hc Hm).
  cbn [format_each]. unfold format_chunk.
  destruct (get_dict d "text" (VStr "")) as (text & ->).
  cbn [bind]. now rewrite Hi.
Qed.

Lemma metadata_without_first_entry_fails_witness :
  _format_response null_metadata "equipment limit for interns"
  = Raise (Exn "TypeError" "'NoneType' object is not subscriptable")
  /\ _format_response
       (rag_response (VList [tiers_chunk]) (VDict [("0", tiers_entry)]))
       "equipment limit for interns"
     = Raise (Exn "KeyError" "0").
Proof.
  split.
  - apply (metadata_without_first_entry_fails null_metadata
             "equipment limit for interns"
             [("text", VStr "Interns may order equipment up to $1,500.");
              ("similarity_score", float_lit 7 (-3))] [] VNone);
      reflexivity.
  - apply (metadata_without_first_entry_fails
             (rag_response (VList [tiers_chunk]) (VDict [("0", tiers_entry)]))
             "equipment limit for interns"
             [("text", VStr "Interns may order equipment up to $1,500.");
              ("similarity_score", float_lit 7 (-3))] []
             (VDict [("0", tiers_entry)]));
      reflexivity.
Defined.

(** ** Defaults and pass-through *)

Lemma answer_item raw original_query a i s :
  _format_response raw original_query = Ok a ->
  nth_error (relevant_sections a) i = Some s ->
  exists chunks metadata chunk entry score,
    chunks_of raw = Ok chunks
    /\ metadata_of raw = Ok metadata
    /\ nth_error chunks i = Some chunk
    /\ Py.index metadata i = Ok entry
    /\ nth_error (citations a) i = Some (cite s)
    /\ nth_error (scores (confidence a)) i = Some score
    /\ Py.get chunk "text" (VStr "") = Ok (content s)
    /\ Py.get entry "section_number" (VStr "Unknown") = Ok (section_number s)
    /\ Py.get entry "section_title" (VStr "") = Ok (section_title s)
    /\ Py.get entry "page_number" (VInt 0) = Ok (page_number s)
    /\ Py.get chunk "similarity_score" (VFloat (S754_zero false)) = Ok score.
Proof.
  intros Ha Hs.
  destruct (format_response_ok _ _ _ Ha)
    as (cs & md & items & Hc & Hm & He & _ & Hsec & Hci & Hsc & _).
  rewrite Hsec, nth_error_map in Hs.
  destruct (nth_error items i) as [item |] eqn:Hitem; [| discriminate Hs].
  inversion Hs; subst s.
  destruct (nth_error cs i) as [chunk |] eqn:Hchunk.
  - destruct (format_each_nth _ _ _ _ _ _ He Hchunk) as (item' & Hn & Hf).
    rewrite Hitem in Hn. inversion Hn; subst item'. simpl in Hf.
    destruct (format_chunk_ok _ _ _ _ Hf)
      as (entry & Hi & Htext & Hnum & Htitle & Hpage & Hcite & Hscore).
    exists cs, md, chunk, entry, (score_of item).
    rewrite Hci, Hsc, !nth_error_map, Hitem. simpl. rewrite Hcite.
    repeat split; assumption.
  - apply nth_error_None in Hchunk.
    rewrite <- (format_each_length _ _ _ _ He) in Hchunk.
    apply nth_error_None in Hchunk. congruence.
Qed.

(** X11: In every answer, a chunk without ["similarity_score"] counts with the
    float 0.0 at its place in [confidence.scores] (and so in the average);
    a score that is there is passed on as it is. *)
Theorem missing_score_counts_as_zero :
  forall raw original_query a chunks i d,
    _format_response raw original_query = Ok a ->
    chunks_of raw = Ok chunks ->
    nth_error chunks i = Some (VDict d) ->
    (Py.lookup "similarity_score" d = None ->
     nth_error (scores (confidence a)) i = Some (VFloat (S754_zero false)))
    /\ (forall v,
           Py.lookup "similarity_score" d = Some v ->
           nth_error (scores (confidence a)) i = Some v).
Proof.
  intros raw q a chunks i d Ha Hc Hn.
  destruct (format_response_ok _ _ _ Ha)
    as (cs & md & items & Hc' & _ & He & _ & _ & _ & Hsc & _).
  rewrite Hc in Hc'. inversion Hc'; subst cs.
  destruct (format_each_nth _ _ _ _ _ _ He Hn) as (item & Hitem & Hf).
  destruct (format_chunk_ok _ _ _ _ Hf) as (_ & _ & _ & _ & _ & _ & _ & Hs).
  cbn [Py.get] in Hs. rewrite Hsc, nth_error_map, Hitem. simpl.
  split.
  - intros Hd. rewrite Hd in Hs. now inversion Hs.
  - intros v Hd. rewrite Hd in Hs. now inversion Hs.
Qed.

Lemma missing_score_counts_as_zero_witness :
  _format_response unscored_first "Can I buy gaming equipment?"
  = Ok unscored_answer
  /\ nth_error (scores (confidence unscored_answer)) 0
     = Some (VFloat (S754_zero false))
  /\ average (confidence unscored_answer) = float_lit 7 (-4).
Proof.
  split; [reflexivity |]. split; [| reflexivity].
  apply (proj1 (missing_score_counts_as_zero unscored_first
                  "Can I buy gaming equipment?" unscored_answer
                  [unscored_chunk; tiers_chunk] 0%nat
                  [("text", VStr "Gaming equipment is prohibited.")]
                  eq_refl eq_refl eq_refl)).
  reflexivity.
Defined.

(** X12: In every answer, each field of a section is the value its metadata
    entry has under that key, whatever it is ([null] included), and the
    default (["Unknown"], [""], [0]) only if the entry has no such key; an
    entry without number and title is cited as ["Section Unknown"]. *)
Theorem metadata_fields_pass_through :
  forall raw original_query a metadata i entry s,
    _format_response raw original_query = Ok a ->
    metadata_of raw = Ok metadata ->
    Py.index metadata i = Ok (VDict entry) ->
    nth_error (relevant_sections a) i = Some s ->
    section_number s
    = match Py.lookup "section_number" entry with
      | Some v => v
      | None => VStr "Unknown"
      end
    /\ section_title s
       = match Py.lookup "section_title" entry with
         | Some v => v
         | None => VStr ""
         end
    /\ page_number s
       = match Py.lookup "page_number" entry with
         | Some v => v
         | None => VInt 0
         end
    /\ (Py.lookup "section_number" entry = None ->
        Py.lookup "section_title" entry = None ->
        nth_error (citations a) i = Some "Section Unknown").
Proof.
  intros raw q a metadata i entry s Ha Hm Hi Hs.
  destruct (answer_item _ _ _ _ _ Ha Hs)
    as (cs & md & chunk & entry' & score & _ & Hm' & _ & Hi' & Hcite & _ & _
        & Hnum & Htitle & Hpage & _).
  rewrite Hm in Hm'. inversion Hm'; subst md.
  rewrite Hi in Hi'. inversion Hi'; subst entry'.
  cbn [Py.get] in Hnum, Htitle, Hpage.
  assert (En : section_number s
               = match Py.lookup "section_number" entry with
                 | Some v => v
                 | None => VStr "Unknown"
                 end)
    by (destruct (Py.lookup "section_number" entry); now inversion Hnum).
  assert (Et : section_title s
               = match Py.lookup "section_title" entry with
                 | Some v => v
                 | None => VStr ""
                 end)
    by (destruct (Py.lookup "section_title" entry); now inversion Htitle).
  assert (Ep : page_number s
               = match Py.lookup "page_number" entry with
                 | Some v => v
                 | None => VInt 0
                 end)
    by (destruct (Py.lookup "page_number" entry); now inversion Hpage).
  repeat split; try assumption.
  intros Hn Ht. rewrite Hcite. unfold cite. rewrite En, Et, Hn, Ht.
  reflexivity.
Qed.

Lemma metadata_fields_pass_through_witness :
  _format_response bare_first "vendor requirements" = Ok bare_answer
  /\ exists s,
       nth_error (relevant_sections bare_answer) 0 = Some s
       /\ section_number s = VStr "5.3"
       /\ section_title s = VStr ""
       /\ page_number s = VInt 0.
Proof.
  split; [reflexivity |].
  eexists. split; [reflexivity |].
  destruct (metadata_fields_pass_through bare_first "vendor requirements"
              bare_answer (VList [vendor_entry; tiers_entry]) 0%nat
              [("section_number", VStr "5.3")] _
              eq_refl eq_refl eq_refl eq_refl) as (Hn & Ht & Hp & _).
  repeat split; assumption.
Defined.

(** X13: In every answer, a citation has the title in parentheses exactly when
    the title is true as a condition: not for [null], [false], [0], [0.0]
    or an empty str, list or dict; a title that is no str is written as
    [str()] writes it. *)
Theorem citation_by_truth_of_title :
  forall raw original_query a i s,
    _format_response raw original_query = Ok a ->
    nth_error (relevant_sections a) i = Some s ->
    (Py.truthy (section_title s) = false ->
     nth_error (citations a) i
     = Some ("Section " ++ Py.str (section_number s)))
    /\ (Py.truthy (section_title s) = true ->
        nth_error (citations a) i
        = Some ("Section " ++ Py.str (section_number s)
                ++ " (" ++ Py.str (section_title s) ++ ")")).
Proof.
  intros raw q a i s Ha Hs.
  destruct (answer_item _ _ _ _ _ Ha Hs)
    as (cs & md & chunk & entry & score & _ & _ & _ & _ & Hcite & _).
  rewrite Hcite. unfold cite.
  split; intros ->; reflexivity.
Qed.

Lemma citation_by_truth_of_title_witness :
  _format_response unscored_first "Can I buy gaming equipment?"
  = Ok unscored_answer
  /\ nth_error (citations unscored_answer) 0 = Some "Section 6.1".
Proof.
  split; [reflexivity |].
  apply (proj1 (citation_by_truth_of_title unscored_first
                  "Can I buy gaming equipment?" unscored_answer 0%nat
                  {| content := VStr "Gaming equipment is prohibited.";
                     section_number := VStr "6.1";
                     section_title := VNone;
                     page_number := VInt 31 |}
                  eq_refl eq_refl)).
  reflexivity.
Defined.

(** ** Size of the summary *)

Lemma length_append s1 s2 :
  String.length (s1 ++ s2) = (String.length s1 + String.length s2)%nat.
Proof. induction s1 as [| c s1 IH]; simpl; [reflexivity | now rewrite IH]. Qed.

Lemma substring_length_le n :
  forall s, (String.length (substring 0 n s) <= n)%nat.
Proof.
  induction n as [| n IH]; intros s.
  - destruct s; simpl; lia.
  - destruct s as [| c s]; simpl; [lia |]. specialize (IH s). lia.
Qed.

(** X14: The summary quotes at most 500 characters of the first text (503 with
    the dots): in every answer whose first section has a text, the summary
    is at most 19 + 500 characters longer than the section number. *)
Theorem summary_is_bounded :
  forall raw original_query a s rest c,
    _format_response raw original_query = Ok a ->
    relevant_sections a = s :: rest ->
    content s = VStr c ->
    (String.length (summary a)
     <= 519 + String.length (Py.str (section_number s)))%nat
    /\ (String.length (summary a)
        <= 19 + String.length (Py.str (section_number s))
           + String.length c)%nat.
Proof.
  intros raw q a s rest c Ha Hs Hc.
  destruct (format_response_ok _ _ _ Ha)
    as (cs & md & items & _ & _ & _ & _ & _ & _ & _ & Hsum & _).
  rewrite Hs, (generate_summary_text s rest q c Hc) in Hsum.
  destruct (500 <? Z.of_nat (String.length c)) eqn:Hlong;
    injection Hsum as E; rewrite <- E.
  - apply Z.ltb_lt in Hlong.
    pose proof (substring_length_le 500 c) as Hsub.
    cbn [String.length]. rewrite length_append. cbn [String.length].
    rewrite length_append. cbn [String.length].
    split; lia.
  - apply Z.ltb_ge in Hlong.
    cbn [String.length]. rewrite length_append. cbn [String.length].
    split; lia.
Qed.

Lemma summary_is_bounded_witness :
  exists a s,
    _format_response long_first "q" = Ok a
    /\ relevant_sections a = [s]
    /\ content s = VStr (repeat_char "x" 2000)
    /\ (String.length (summary a) <= 519 + 3)%nat.
Proof.
  destruct (format_response_returns long_first "q"
              [VDict [("text", VStr (repeat_char "x" 2000));
                      ("similarity_score", float_lit 1 (-1))]]
              [tiers_entry] eq_refl eq_refl eq_refl eq_refl eq_refl)
    as (a & Ha); [reflexivity |].
  destruct (format_response_ok _ _ _ Ha)
    as (cs & md & items & Hc & Hm & He & _ & Hs & _).
  inversion Hc; subst cs. inversion Hm; subst md.
  inversion He; subst items. cbn [map section_of fst] in Hs.
  eexists a, _. split; [exact Ha |]. split; [exact Hs |].
  split; [reflexivity |].
  apply (proj1 (summary_is_bounded long_first "q" a _ [] _ Ha Hs eq_refl)).
Defined.

(** ** The query *)

(** X15: The query is only copied into the answer: the same response formatted
    for another query gives the same sections, citations, confidence and
    summary, or the same exception. *)
Theorem query_is_only_echoed :
  forall raw q1 q2,
    _format_response raw q2
    = (a <- _format_response raw q1 ;; Ok (with_query q2 a)).
Proof.
  intros raw q1 q2. unfold _format_response.
  destruct (extract_result raw) as [result | e]; [| reflexivity].
  cbn [bind].
  destruct (Py.get result "chunks" (VList [])) as [chunks | e];
    [| reflexivity].
  cbn [bind].
  destruct (Py.get result "metadata" (VList [])) as [metadata | e];
    [| reflexivity].
  cbn [bind].
  destruct (Py.iterate chunks) as [items | e]; [| reflexivity].
  cbn [bind].
  destruct (format_chunks metadata 0 items ([], [], []))
    as [[[sections cites] scores_] | e]; [| reflexivity].
  cbn [bind].
  change (_generate_summary sections q2) with (_generate_summary sections q1).
  destruct (_generate_summary sections q1) as [text | e]; [| reflexivity].
  cbn [bind].
  destruct (mean_or_zero scores_) as [mean | e]; reflexivity.
Qed.

(** X16: Whatever happens, the dict [execute] returns carries the query it was
    called with. *)
Theorem execute_echoes_query :
  forall (LANGFLOW_URL FLOW_ID : string) (Response : Type)
         (requests_post :
            string -> value -> list (string * string) -> Z -> raises Response)
         (raise_for_status : Response -> raises unit)
         (json : Response -> raises value)
         (q : string) (section_filter : option string) (top_k : Z)
         (returned : AnswerResult),
    execute LANGFLOW_URL FLOW_ID requests_post raise_for_status json
      q section_filter top_k
    = Ok returned ->
    result_query returned = q.
Proof.
  intros URL FLOW Response post rfs json q sf k returned. unfold execute.
  destruct (_call_langflow_rag URL FLOW post rfs json q sf k)
    as [raw | e]; cbn [bind].
  - destruct (_format_response raw q) as [a | e] eqn:Ha.
    + intros H. inversion H; subst returned.
      destruct (format_response_ok _ _ _ Ha)
        as (_ & _ & _ & _ & _ & _ & Hq & _).
      exact Hq.
    + destruct (is_Exception e); intros H; inversion H. reflexivity.
  - destruct (is_Exception e); intros H; inversion H. reflexivity.
Qed.

Lemma execute_echoes_query_witness :
  execute "http://127.0.0.1:7860" "policy-rag-flow" refusing status_ok body
    "gaming equipment?" None 3
  = Ok (Failure (_handle_error (Exn "ConnectionError" "Connection refused")
                   "gaming equipment?"))
  /\ result_query
       (Failure (_handle_error (Exn "ConnectionError" "Connection refused")
                   "gaming equipment?"))
     = "gaming equipment?"
  /\ result_query (Success two_answer) = "equipment limit for interns".
Proof.
  split; [reflexivity |]. split.
  - apply (execute_echoes_query "http://127.0.0.1:7860" "policy-rag-flow"
             value refusing status_ok body "gaming equipment?" None 3).
    reflexivity.
  - apply (execute_echoes_query "http://127.0.0.1:7860" "policy-rag-flow"
             value (answering two_chunks) status_ok body
             "equipment limit for interns" (Some "3.2") 3).
    reflexivity.
Defined.

(** ** Further properties of the request *)

(** X17: Building the payload never fails and checks nothing: the query goes
    under ["input_value"] as it is, [top_k] under [tweaks.Retriever.top_k]
    whatever its sign, both types are ["chat"], the payload has these four
    keys and no other, and a ["filter"] key occurs in it exactly when the
    section filter is a non-empty string. *)
Theorem payload_passes_arguments_through :
  forall query section_filter top_k,
    exists payload,
      build_payload query section_filter top_k = Ok payload
      /\ keys payload = ["input_value"; "output_type"; "input_type"; "tweaks"]
      /\ at_path payload ["input_value"] = Ok (VStr query)
      /\ at_path payload ["output_type"] = Ok (VStr "chat")
      /\ at_path payload ["input_type"] = Ok (VStr "chat")
      /\ at_path payload ["tweaks"; "Retriever"; "top_k"] = Ok (VInt top_k)
      /\ (exists tweaks,
             at_path payload ["tweaks"] = Ok tweaks
             /\ keys tweaks = ["Retriever"])
      /\ mentions_key "filter" payload
         = Py.truthy (of_optional section_filter).
Proof.
  intros query [[| c s] |] top_k; eexists;
    (split; [reflexivity |]);
    repeat (split; [reflexivity |]);
    (split; [eexists; split; reflexivity | reflexivity]).
Qed.


(** X19: [execute] sees the HTTP client through one request only, the POST of
    the payload to [{LANGFLOW_URL}/api/v1/run/{FLOW_ID}] with the JSON
    content type and a timeout of 30: two clients that agree on it give the
    same result. *)
Theorem one_request_decides :
  forall (LANGFLOW_URL FLOW_ID : string) (Response : Type)
         (requests_post requests_post' :
            string -> value -> list (string * string) -> Z -> raises Response)
         (raise_for_status : Response -> raises unit)
         (json : Response -> raises value)
         (q : string) (section_filter : option string) (top_k : Z),
    (forall payload,
        build_payload q section_filter top_k = Ok payload ->
        requests_post (LANGFLOW_URL ++ "/api/v1/run/" ++ FLOW_ID) payload
          [("Content-Type", "application/json")] 30
        = requests_post' (LANGFLOW_URL ++ "/api/v1/run/" ++ FLOW_ID) payload
            [("Content-Type", "application/json")] 30) ->
    execute LANGFLOW_URL FLOW_ID requests_post raise_for_status json
      q section_filter top_k
    = execute LANGFLOW_URL FLOW_ID requests_post' raise_for_status json
        q section_filter top_k.
Proof.
  intros URL FLOW Response post post' rfs json q sf k H.
  unfold execute, _call_langflow_rag.
  destruct (build_payload q sf k) as [payload | e] eqn:Hp; [| reflexivity].
  cbn [bind]. now rewrite (H payload eq_refl).
Qed.

Lemma one_request_decides_witness :
  execute "http://127.0.0.1:7860" "policy-rag-flow"
    (by_url (fun url =>
               if String.eqb url
                    "http://127.0.0.1:7860/api/v1/run/policy-rag-flow"
               then Ok two_chunks
               else Raise (Exn "ConnectionError" "Connection refused")))
    status_ok body "equipment limit for interns" (Some "3.2") 3
  = execute "http://127.0.0.1:7860" "policy-rag-flow"
      (answering two_chunks) status_ok body
      "equipment limit for interns" (Some "3.2") 3.
Proof.
  apply one_request_decides. intros payload _. reflexivity.
Defined.

(** X20: [section_filter] and [top_k] are left to the server: they reach the
    result through the payload only, so with a server that does not look at
    the payload every filter and every limit give the same result (no
    section is filtered out and no chunk cut off by the tool itself). *)
Theorem filter_and_limit_are_left_to_the_server :
  forall (LANGFLOW_URL FLOW_ID : string) (Response : Type)
         (requests_post :
            string -> value -> list (string * string) -> Z -> raises Response)
         (raise_for_status : Response -> raises unit)
         (json : Response -> raises value)
         (q : string) (section_filter section_filter' : option string)
         (top_k top_k' : Z),
    (forall endpoint payload payload' headers timeout,
        requests_post endpoint payload headers timeout
        = requests_post endpoint payload' headers timeout) ->
    execute LANGFLOW_URL FLOW_ID requests_post raise_for_status json
      q section_filter top_k
    = execute LANGFLOW_URL FLOW_ID requests_post raise_for_status json
        q section_filter' top_k'.
Proof.
  intros URL FLOW Response post rfs json q sf sf' k k' H.
  unfold execute, _call_langflow_rag.
  destruct (build_payload_returns q sf k) as (p & ->).
  destruct (build_payload_returns q sf' k') as (p' & ->).
  cbn [bind].
  now rewrite (H (URL ++ "/api/v1/run/" ++ FLOW) p p').
Qed.

Lemma filter_and_limit_are_left_to_the_server_witness :
  execute "http://127.0.0.1:7860" "policy-rag-flow"
    (answering two_chunks) status_ok body
    "equipment limit for interns" (Some "4.1") 1
  = Ok (Success two_answer).
Proof.
  rewrite (filter_and_limit_are_left_to_the_server
             "http://127.0.0.1:7860" "policy-rag-flow" value
             (answering two_chunks) status_ok body
             "equipment limit for interns" (Some "4.1") None 1 3).
  - reflexivity.
  - intros. reflexivity.
Defined.



(** X22: A response that is valid JSON but no object (an array, a string, a
    number, [null]) is an [AttributeError] of the formatter, which
    [execute] answers with the error dict. *)
Theorem response_that_is_no_object_fails :
  forall (LANGFLOW_URL FLOW_ID : string) (Response : Type)
         (requests_post :
            string -> value -> list (string * string) -> Z -> raises Response)
         (raise_for_status : Response -> raises unit)
         (json : Response -> raises value)
         (q : string) (section_filter : option string) (top_k : Z)
         (raw : value),
    _call_langflow_rag LANGFLOW_URL FLOW_ID requests_post raise_for_status
      json q section_filter top_k = Ok raw ->
    is_dict raw = false ->
    _format_response raw q
    = Raise (Exn "AttributeError"
               ("'" ++ Py.type_name raw ++ "' object has no attribute 'get'"))
    /\ execute LANGFLOW_URL FLOW_ID requests_post raise_for_status json
         q section_filter top_k
       = Ok (Failure
               {| error_query := q;
                  error := true;
                  error_message :=
                    "'" ++ Py.type_name raw
                    ++ "' object has no attribute 'get'";
                  fallback :=
                    "Unable to retrieve policy information dynamically. Please consult the policy document directly or contact procurement@acme.corp for assistance.";
                  error_relevant_sections := [];
                  error_citations := [] |}).
Proof.
  intros URL FLOW Response post rfs json q sf k raw Hcall Hraw.
  assert (Hf : _format_response raw q
               = Raise (Exn "AttributeError"
                          ("'" ++ Py.type_name raw
                           ++ "' object has no attribute 'get'"))).
  { destruct raw; try reflexivity. discriminate Hraw. }
  split; [exact Hf |].
  unfold execute. rewrite Hcall. cbn [bind]. rewrite Hf. reflexivity.
Qed.

Lemma response_that_is_no_object_fails_witness :
  execute "http://127.0.0.1:7860" "policy-rag-flow"
    (answering (VList [])) status_ok body "gaming equipment?" None 3
  = Ok (Failure (_handle_error
                   (Exn "AttributeError" "'list' object has no attribute 'get'")
                   "gaming equipment?")).
Proof.
  apply (proj2 (response_that_is_no_object_fails
                  "http://127.0.0.1:7860" "policy-rag-flow" value
                  (answering (VList [])) status_ok body
                  "gaming equipment?" None 3 (VList [])
                  eq_refl eq_refl)).
Defined.
